(** * Model card component (components/model_card/model_card.js)

    A shallow embedding of the card component: the metric formatter
    [formatMetricValue], the row loop that builds [metricRowsHtml], the
    markup of the card, the mount into the host element, the selection
    handlers and the teardown closure.

    The component receives its payload from the host as deserialised JSON,
    so the values it sees are the JSON values, together with [undefined],
    which a read of an absent property yields.  Numbers are IEEE 754
    binary64 values, as in ECMAScript; they are modelled by the primitive
    floats of the kernel, whose operations are the same. *)

From Stdlib Require Import ZArith String Ascii List Floats Lia DecimalString.
From stdpp Require Import base option list gmap strings.

Local Open Scope string_scope.
Local Open Scope Z_scope.

(** ** Completions

    An ECMAScript operation either returns normally or throws.  The only
    exceptions the component can meet are the [TypeError] of the language
    (a property read on [null], a call of a non-function, a failed
    conversion to a primitive), the [SyntaxError] of [querySelector] on a
    selector that does not parse, and the [NotFoundError] of
    [removeChild]. *)

Inductive JSError : Type :=
| TypeError
| SyntaxError
| NotFoundError.

Inductive Completion (A : Type) : Type :=
| Normal (a : A)
| Throw (e : JSError).

Arguments Normal {A} a.
Arguments Throw {A} e.

Definition bindC {A B : Type} (c : Completion A) (k : A -> Completion B)
  : Completion B :=
  match c with
  | Normal a => k a
  | Throw e => Throw e
  end.

Notation "'let*' x ':=' c 'in' k" := (bindC c (fun x => k))
  (at level 10, x name, c at level 100, k at level 200).

Definition isNormal {A : Type} (c : Completion A) : bool :=
  match c with
  | Normal _ => true
  | Throw _ => false
  end.

(** ** Values *)

Unset Elimination Schemes.

Inductive JSValue : Type :=
| JSUndefined
| JSNull
| JSBoolean (b : bool)
| JSNumber (x : float)
| JSString (s : string)
| JSArray (elems : list JSValue)
| JSObject (props : list (string * JSValue)).

Set Elimination Schemes.

(** The structural induction principle that reaches inside arrays and
    objects. *)
Definition JSValue_deep_ind (P : JSValue -> Prop)
  (Hundef : P JSUndefined) (Hnull : P JSNull)
  (Hbool : forall b, P (JSBoolean b)) (Hnum : forall x, P (JSNumber x))
  (Hstr : forall s, P (JSString s))
  (Harr : forall elems, Forall P elems -> P (JSArray elems))
  (Hobj : forall props, Forall (fun kv => P (snd kv)) props ->
                        P (JSObject props))
  : forall v, P v :=
  fix go (v : JSValue) : P v :=
    match v with
    | JSUndefined => Hundef
    | JSNull => Hnull
    | JSBoolean b => Hbool b
    | JSNumber x => Hnum x
    | JSString s => Hstr s
    | JSArray elems =>
        Harr elems
          ((fix all (l : list JSValue) : Forall P l :=
              match l with
              | [] => List.Forall_nil P
              | e :: rest => List.Forall_cons P e rest (go e) (all rest)
              end) elems)
    | JSObject props =>
        Hobj props
          ((fix all (l : list (string * JSValue))
              : Forall (fun kv => P (snd kv)) l :=
              match l with
              | [] => List.Forall_nil _
              | kv :: rest => List.Forall_cons _ kv rest (go (snd kv)) (all rest)
              end) props)
    end.

Definition isObject (v : JSValue) : bool :=
  match v with
  | JSArray _ | JSObject _ => true
  | _ => false
  end.

(** [v ?? d] *)
Definition nullish (v d : JSValue) : JSValue :=
  match v with
  | JSUndefined | JSNull => d
  | _ => v
  end.

(** ToBoolean (ECMA-262, 7.1.2). *)
Definition ToBoolean (v : JSValue) : bool :=
  match v with
  | JSUndefined | JSNull => false
  | JSBoolean b => b
  | JSNumber x => negb (PrimFloat.eqb x 0 || PrimFloat.is_nan x)
  | JSString s => negb (String.eqb s EmptyString)
  | JSArray _ | JSObject _ => true
  end.

(** [a || b] *)
Definition JSOr (a b : JSValue) : JSValue :=
  if ToBoolean a then a else b.

(** [v === s] for a string literal [s]: strict equality never converts. *)
Definition strictEqualsString (v : JSValue) (s : string) : bool :=
  match v with
  | JSString t => String.eqb t s
  | _ => false
  end.

(** Own properties of an object of the payload.  The list is the object's
    property table; the first entry for a key is the one that counts. *)
Fixpoint getOwn (props : list (string * JSValue)) (k : string)
  : option JSValue :=
  match props with
  | [] => None
  | (k', v) :: rest => if String.eqb k' k then Some v else getOwn rest k
  end.

Definition hasOwnProperty (props : list (string * JSValue)) (k : string)
  : bool :=
  match getOwn props k with
  | Some _ => true
  | None => false
  end.

(** [v.k] for the property names the component reads ([recommended],
    [color], [metrics], [name], [id], [label], [value], [format]): none of
    them is defined on a built-in prototype, so the read finds an own
    property of an object or yields [undefined]; on [undefined] and [null]
    it throws. *)
Definition Get (v : JSValue) (k : string) : Completion JSValue :=
  match v with
  | JSUndefined | JSNull => Throw TypeError
  | JSObject props =>
      Normal (match getOwn props k with Some x => x | None => JSUndefined end)
  | _ => Normal JSUndefined
  end.

(** ** Numbers and their renderings *)

(** What the component takes from the platform without looking inside:
    the numeric value of a string (StringToNumber, 7.1.4.1.1), the shortest
    decimal rendering of a positive finite number (Number::toString from
    step 5 on, 6.1.6.1.20), and whether a selector matches an element of
    the tree that the HTML parser builds from a markup string
    ([querySelector], which throws on a selector that does not parse). *)
Class Runtime : Type := {
  StringToNumber : string -> float;
  PositiveToString : float -> string;
  querySelectorMatches : string -> string -> Completion bool
}.

Definition signString (s : bool) : string :=
  if s then "-" else EmptyString.

Definition digitsOfZ (n : Z) : string :=
  NilZero.string_of_uint (N.to_uint (Z.to_N n)).

Fixpoint zeros (n : nat) : string :=
  match n with
  | O => EmptyString
  | S n' => String "0" (zeros n')
  end.

Fixpoint takeS (n : nat) (s : string) : string :=
  match n, s with
  | S n', String c r => String c (takeS n' r)
  | _, _ => EmptyString
  end.

Fixpoint dropS (n : nat) (s : string) : string :=
  match n, s with
  | S n', String _ r => dropS n' r
  | _, _ => s
  end.

(** Steps 11.b and 11.c of Number.prototype.toFixed: the digits of [n],
    padded with zeros to at least [f + 1] characters, with the point before
    the last [f] of them. *)
Definition fixedDigits (n : Z) (f : nat) : string :=
  let m := digitsOfZ n in
  let k := String.length m in
  let m := if (k <=? f)%nat then zeros (f + 1 - k) +:+ m else m in
  let k := Nat.max k (f + 1) in
  match f with
  | O => m
  | _ => takeS (k - f) m +:+ "." +:+ dropS (k - f) m
  end.

(** Step 11.a: the integer [n] for which [n / 10^f - m * 2^e] is closest to
    zero, the larger one when two are as close. *)
Definition scaledRound (m : positive) (e : Z) (f : nat) : Z :=
  if 0 <=? e then Z.pos m * 2 ^ e * 10 ^ Z.of_nat f
  else (2 * Z.pos m * 10 ^ Z.of_nat f + 2 ^ (- e)) / 2 ^ (1 - e).

(** [m * 2^e >= 10^21] *)
Definition atLeast1e21 (m : positive) (e : Z) : bool :=
  if 0 <=? e then 10 ^ 21 <=? Z.pos m * 2 ^ e
  else 10 ^ 21 * 2 ^ (- e) <=? Z.pos m.

Section Formatter.
Context {rt : Runtime}.

(** Number::toString (6.1.6.1.20), radix 10. *)
Definition NumberToString (x : float) : string :=
  match Prim2SF x with
  | S754_nan => "NaN"
  | S754_zero _ => "0"
  | S754_infinity s => signString s +:+ "Infinity"
  | S754_finite s _ _ => signString s +:+ PositiveToString (PrimFloat.abs x)
  end.

(** Number.prototype.toFixed (21.1.3.3) for [f] fraction digits,
    [0 <= f <= 100]. *)
Definition toFixed (x : float) (f : nat) : string :=
  match Prim2SF x with
  | S754_nan | S754_infinity _ => NumberToString x
  | S754_zero _ => fixedDigits 0 f
  | S754_finite s m e =>
      signString s +:+
      (if atLeast1e21 m e then NumberToString (PrimFloat.abs x)
       else fixedDigits (scaledRound m e f) f)
  end.

(** ToString of a primitive (7.1.17). *)
Definition ToStringPrimitive (v : JSValue) : Completion string :=
  match v with
  | JSUndefined => Normal "undefined"
  | JSNull => Normal "null"
  | JSBoolean b => Normal (if b then "true" else "false")
  | JSNumber x => Normal (NumberToString x)
  | JSString s => Normal s
  | JSArray _ | JSObject _ => Throw TypeError
  end.

(** ToNumber of a primitive (7.1.4). *)
Definition ToNumberPrimitive (v : JSValue) : Completion float :=
  match v with
  | JSUndefined => Normal nan
  | JSNull => Normal 0%float
  | JSBoolean b => Normal (if b then 1%float else 0%float)
  | JSNumber x => Normal x
  | JSString s => Normal (StringToNumber s)
  | JSArray _ | JSObject _ => Throw TypeError
  end.

(** Array.prototype.join with the separator [","], over the conversion
    [conv] of an element to a string: [undefined] and [null] elements
    contribute the empty string. *)
Definition ArrayJoin (conv : JSValue -> Completion string)
  : list JSValue -> Completion string :=
  fix join (l : list JSValue) : Completion string :=
    match l with
    | [] => Normal EmptyString
    | e :: rest =>
        let* next :=
          match e with
          | JSUndefined | JSNull => Normal EmptyString
          | _ => conv e
          end in
        match rest with
        | [] => Normal next
        | _ => let* r := join rest in Normal (next +:+ "," +:+ r)
        end
    end.

Inductive Hint : Type := HintNumber | HintString.

Definition methodNames (hint : Hint) : list string :=
  match hint with
  | HintNumber => ["valueOf"; "toString"]
  | HintString => ["toString"; "valueOf"]
  end.

(** The call [o.name()] made by OrdinaryToPrimitive, [None] when the
    property is not callable.  An own property of a payload object is
    data, never a function, and shadows the method of the prototype;
    otherwise [valueOf] is Object.prototype.valueOf, which returns the
    object itself, and [toString] is Object.prototype.toString for an
    object and Array.prototype.toString, that is [join], for an array. *)
Definition callMethod (conv : JSValue -> Completion string)
  (o : JSValue) (name : string) : option (Completion JSValue) :=
  match o with
  | JSObject props =>
      if hasOwnProperty props name then None
      else if String.eqb name "valueOf" then Some (Normal o)
      else if String.eqb name "toString"
           then Some (Normal (JSString "[object Object]"))
      else None
  | JSArray elems =>
      if String.eqb name "valueOf" then Some (Normal o)
      else if String.eqb name "toString"
           then Some (let* s := ArrayJoin conv elems in Normal (JSString s))
      else None
  | _ => None
  end.

(** OrdinaryToPrimitive (7.1.1.1). *)
Fixpoint tryMethods (conv : JSValue -> Completion string)
  (o : JSValue) (names : list string) : Completion JSValue :=
  match names with
  | [] => Throw TypeError
  | name :: rest =>
      match callMethod conv o name with
      | Some (Normal r) =>
          if isObject r then tryMethods conv o rest else Normal r
      | Some (Throw err) => Throw err
      | None => tryMethods conv o rest
      end
  end.

Definition OrdinaryToPrimitive (conv : JSValue -> Completion string)
  (o : JSValue) (hint : Hint) : Completion JSValue :=
  tryMethods conv o (methodNames hint).

(** ToString (7.1.17): a primitive is rendered directly, an object is
    first converted to a primitive with hint string. *)
Fixpoint ToString (v : JSValue) : Completion string :=
  match v with
  | JSArray elems =>
      let* p := OrdinaryToPrimitive ToString (JSArray elems) HintString in
      ToStringPrimitive p
  | JSObject props =>
      let* p := OrdinaryToPrimitive ToString (JSObject props) HintString in
      ToStringPrimitive p
  | _ => ToStringPrimitive v
  end.

(** ToPrimitive (7.1.1). *)
Definition ToPrimitive (v : JSValue) (hint : Hint) : Completion JSValue :=
  if isObject v then OrdinaryToPrimitive ToString v hint else Normal v.

(** ToNumber (7.1.4), which is what [Number(v)] computes on these
    values. *)
Definition ToNumber (v : JSValue) : Completion float :=
  let* p := ToPrimitive v HintNumber in ToNumberPrimitive p.

(** *** The formatter (model_card.js, lines 36 to 56) *)

Definition formatMetricValue (value format : JSValue) : Completion string :=
  let* numValue := ToNumber (nullish value (JSNumber 0)) in
  if strictEqualsString format "STRING" then
    ToString (nullish value (JSString EmptyString))
  else if strictEqualsString format "PERCENT" then
    if PrimFloat.eqb numValue 0 then Normal EmptyString
    else Normal (toFixed numValue 2 +:+ "%")
  else if strictEqualsString format "DECIMAL" then
    Normal (toFixed numValue 2)
  else if strictEqualsString format "DOLLAR" then
    if PrimFloat.eqb numValue 0 then Normal "$0.0"
    else
      let absValue := PrimFloat.abs numValue in
      if PrimFloat.leb 1000000 absValue then
        Normal ("$" +:+ toFixed (numValue / 1000000) 1 +:+ "M")
      else if PrimFloat.leb 1000 absValue then
        Normal ("$" +:+ toFixed (numValue / 1000) 1 +:+ "K")
      else Normal ("$" +:+ toFixed numValue 1)
  else ToString (nullish value (JSString EmptyString)).


(** *** Markup (model_card.js, lines 16 to 33 and the two templates) *)

Definition dq : string := String (ascii_of_nat 34) EmptyString.
Definition nl : string := String (ascii_of_nat 10) EmptyString.

Definition cat (parts : list string) : string :=
  fold_right String.append EmptyString parts.

Definition cardRadius : string := "12px".
Definition cardShadow : string := "0 1px 2px rgba(0,0,0,.04)".
Definition cardHoverShadow : string := "0 8px 28px rgba(0,0,0,.12)".
Definition headerHeight : string := "64px".
Definition headerPadding : string := "12px 16px".
Definition bodyPadding : string := "10px 16px".
Definition rowPadding : string := "6px 0".
Definition titleSize : string := "18px".
Definition titleWeight : string := "700".
Definition titleFontFamily : string := cat [dq; "Merriweather"; dq; ", serif"].
Definition bodyFontFamily : string :=
  cat [dq; "IBM Plex Sans"; dq; ", system-ui, sans-serif"].
Definition labelSize : string := ".875rem".
Definition valueSize : string := "1rem".
Definition valueWeight : string := "400".
Definition labelColor : string := "#374151".
Definition valueColor : string := "#111827".
Definition starBadgeColor : string := "#facc15".

(** The template literal of one metric row (lines 67 to 75). *)
Definition rowTemplate (borderClass borderStyle labelText formattedValue
                        : string) : string :=
  cat [nl; "      <div class="; dq; borderClass; dq; " style="; dq;
       "display:flex;justify-content:space-between;align-items:center;"; nl;
       "                                        padding:"; rowPadding; ";";
       borderStyle; dq; ">"; nl; "        <span style="; dq; "font-size:";
       labelSize; ";color:"; labelColor; ";"; dq; ">"; labelText; "</span>";
       nl; "        <span style="; dq; "font-size:"; valueSize;
       ";font-weight:"; valueWeight; ";color:"; valueColor; ";"; dq; ">"; nl;
       "          "; formattedValue; nl; "        </span>"; nl;
       "      </div>"; nl; "    "].

(** The template literal of the card (lines 81 to 102). *)
Definition cardTemplate (cardId colorText nameText pastel metricRowsHtml
                         : string) (isRecommended : bool) : string :=
  cat [nl; "    <div id="; dq; cardId; dq; " class="; dq; "mc-card"; dq;
       " role="; dq; "button"; dq; " tabindex="; dq; "0"; dq; nl;
       "         style="; dq; "border-radius:"; cardRadius; ";box-shadow:";
       cardShadow; ";background:#fff;"; dq; ">"; nl; "      <div style="; dq;
       "background:"; colorText; ";padding:"; headerPadding; ";height:";
       headerHeight; ";"; nl;
       "                  display:flex;align-items:center;"; dq; ">"; nl;
       "        <div style="; dq;
       "display:flex;align-items:center;justify-content:space-between;width:100%;gap:12px;";
       dq; ">"; nl; "          <h3 style="; dq; "color:#fff;font-weight:";
       titleWeight; ";font-size:"; titleSize; ";"; nl;
       "                     font-family:"; titleFontFamily;
       ";margin:0;line-height:1.2;"; nl;
       "                     display:-webkit-box;-webkit-line-clamp:2;-webkit-box-orient:vertical;";
       nl; "                     overflow:hidden;"; dq; ">"; nl;
       "            "; nameText; nl; "          </h3>"; nl;
       "          <span style="; dq; "color:";
       (if isRecommended then starBadgeColor else "rgba(255,255,255,0.5)");
       ";font-size:25px;line-height:1;"; nl;
       "                            display:flex;align-items:center;justify-content:center;min-width:25px;";
       dq; ">"; (if isRecommended then "★" else "☆"); "</span>"; nl;
       "        </div>"; nl; "      </div>"; nl; nl; "      <div style="; dq;
       "background:"; pastel; ";padding:"; bodyPadding; ";font-family:";
       bodyFontFamily; ";"; dq; ">"; nl; "        "; metricRowsHtml; nl;
       "      </div>"; nl; "    </div>"; nl; "  "].

(** *** Metric rows (model_card.js, lines 58 to 76) *)

(** Array.prototype.forEach over the elements of an array, threading the
    variables the callback assigns to. *)
Fixpoint forEachFrom {S : Type}
  (callback : S -> JSValue -> nat -> Completion S)
  (elems : list JSValue) (index : nat) (st : S) : Completion S :=
  match elems with
  | [] => Normal st
  | element :: rest =>
      let* st' := callback st element index in
      forEachFrom callback rest (Datatypes.S index) st'
  end.

(** The body of the callback, as the text it appends to [metricRowsHtml]. *)
Definition metricRow (metricsLength : nat) (metric : JSValue) (index : nat)
  : Completion string :=
  let isLast := Nat.eqb index (metricsLength - 1) in
  let borderClass := if isLast then "mc-row-last" else EmptyString in
  let borderStyle :=
    if isLast then "border-bottom:none;"
    else "border-bottom:1px solid rgba(0,0,0,.08);" in
  let* value := Get metric "value" in
  let* format := Get metric "format" in
  let* formattedValue := formatMetricValue value format in
  let* label := Get metric "label" in
  let* labelText := ToString (JSOr label (JSString EmptyString)) in
  Normal (rowTemplate borderClass borderStyle labelText formattedValue).

Definition metricRowCallback (metricsLength : nat) (metricRowsHtml : string)
  (metric : JSValue) (index : nat) : Completion string :=
  let* row := metricRow metricsLength metric index in
  Normal (metricRowsHtml +:+ row).

(** [metrics.forEach(...)] on the value of [m.metrics || []]: only an array
    has the method. *)
Definition metricRowsHtml (metrics : JSValue) : Completion string :=
  match metrics with
  | JSArray elems =>
      forEachFrom (metricRowCallback (List.length elems)) elems 0%nat
        EmptyString
  | _ => Throw TypeError
  end.

End Formatter.

(** ** The host: callbacks and document *)

(** The calls of the two host callbacks, in the order they are made. *)
Inductive Signal : Type :=
| setStateValue (name : string) (value : JSValue)
| setTriggerValue (name : string) (value : JSValue).

Module KeyboardEvent.
Record t : Type := { key : string; defaultPrevented : bool }.
Definition preventDefault (e : t) : t :=
  {| key := key e; defaultPrevented := true |}.
End KeyboardEvent.

Definition ClickHandler : Type := list Signal -> Completion (list Signal).
Definition KeydownHandler : Type :=
  KeyboardEvent.t -> list Signal ->
  Completion (KeyboardEvent.t * list Signal).

(** The element a selector matched: the style properties set by script
    (value and priority by name) and its two event handler properties. *)
Record Element : Type := {
  style : gmap string (string * string);
  onclick : option ClickHandler;
  onkeydown : option KeydownHandler
}.

(** A node created by the component: its markup and the card element found
    in it. *)
Record Node : Type := {
  innerHTML : string;
  cardElement : option Element
}.

Record Document : Type := {
  nodes : gmap nat Node;
  childNodes : gmap nat (list nat)
}.

Definition children (doc : Document) (parent : nat) : list nat :=
  default [] (childNodes doc !! parent).

(** [document.createElement]: a node that no other node is. *)
Definition createElement (doc : Document) : nat * Document :=
  let node := fresh (dom (nodes doc)) in
  (node,
   {| nodes := <[node := {| innerHTML := EmptyString;
                            cardElement := None |}]> (nodes doc);
      childNodes := childNodes doc |}).

Definition setInnerHTML (node : nat) (html : string) (doc : Document)
  : Document :=
  {| nodes := <[node := {| innerHTML := html; cardElement := None |}]>
                (nodes doc);
     childNodes := childNodes doc |}.

Definition setCardElement (node : nat) (el : Element) (doc : Document)
  : Document :=
  {| nodes := alter (fun n => {| innerHTML := innerHTML n;
                                 cardElement := Some el |}) node (nodes doc);
     childNodes := childNodes doc |}.

(** [parent.appendChild(node)] for a node that has no parent yet; the
    receiver may be absent, and the call then throws. *)
Definition appendChild (parent : option nat) (node : nat) (doc : Document)
  : Completion Document :=
  match parent with
  | None => Throw TypeError
  | Some p =>
      Normal {| nodes := nodes doc;
                childNodes := <[p := (children doc p ++ [node])%list]>
                                (childNodes doc) |}
  end.

(** [parent.removeChild(node)]: throws when [node] is not a child of
    [parent]. *)
Definition removeChild (parent : option nat) (node : nat) (doc : Document)
  : Completion Document :=
  match parent with
  | None => Throw TypeError
  | Some p =>
      if decide (node ∈ children doc p) then
        Normal {| nodes := nodes doc;
                  childNodes := <[p := filter (fun n => n ≠ node)
                                         (children doc p)]>
                                  (childNodes doc) |}
      else Throw NotFoundError
  end.

(** ** The component (model_card.js, lines 1 to 141) *)

Section Card.
Context {rt : Runtime}.

Record Component : Type := {
  parentElement : option nat;
  data : JSValue;
  key : string
}.

(** [color + s] for a string [s]: the left operand is converted to a
    primitive without a preferred type, which an ordinary object takes as
    hint number, and the result is the concatenation of the two strings. *)
Definition addString (v : JSValue) (s : string) : Completion string :=
  let* lprim := ToPrimitive v HintNumber in
  let* lstr := ToStringPrimitive lprim in
  Normal (lstr +:+ s).

(** Lines 120 to 124. *)
Definition handleSelect (m : JSValue) : ClickHandler :=
  fun host =>
    let* id := Get m "id" in
    let* cardId :=
      if ToBoolean id then Normal id
      else let* name := Get m "name" in Normal (JSOr name JSNull) in
    Normal (host ++ [setStateValue "selected" cardId;
                     setTriggerValue "clicked" cardId])%list.

(** Lines 130 to 135. *)
Definition onkeydownHandler (m : JSValue) : KeydownHandler :=
  fun e host =>
    if String.eqb (KeyboardEvent.key e) "Enter"
       || String.eqb (KeyboardEvent.key e) " " then
      let e := KeyboardEvent.preventDefault e in
      let* host := handleSelect m host in
      Normal (e, host)
    else Normal (e, host).

(** Lines 113 to 135: the style properties and the handlers put on the
    card element. *)
Definition wiredCard (m : JSValue) : Element :=
  {| style :=
       <["box-shadow" := (cardShadow, EmptyString)]>
         (<["border-radius" := (cardRadius, "important")]>
            (<["--mc-card-hover-shadow" := (cardHoverShadow, EmptyString)]>
               ∅));
     onclick := Some (handleSelect m);
     onkeydown := Some (onkeydownHandler m) |}.

(** The exported function.  It returns the document after the mount, the
    node it created, and the cleanup closure. *)
Definition model_card (component : Component) (doc : Document)
  : Completion (Document * nat * (Document -> Completion Document)) :=
  let m := JSOr (data component) (JSObject []) in
  let cardId := "mc-card-" +:+ key component in
  let* recommended := Get m "recommended" in
  let isRecommended := ToBoolean recommended in
  let* c := Get m "color" in
  let color := JSOr c (JSString "#3B82F6") in
  let* pastel := addString color "26" in
  let* ms := Get m "metrics" in
  let metrics := JSOr ms (JSArray []) in
  let* rows := metricRowsHtml metrics in
  let* colorText := ToString color in
  let* name := Get m "name" in
  let* nameText := ToString (nullish name (JSString EmptyString)) in
  let html :=
    cardTemplate cardId colorText nameText pastel rows isRecommended in
  let '(node, doc) := createElement doc in
  let doc := setInnerHTML node html doc in
  let* doc := appendChild (parentElement component) node doc in
  let* found := querySelectorMatches html ("#" +:+ cardId) in
  let doc := if found then setCardElement node (wiredCard m) doc else doc in
  Normal (doc, node, removeChild (parentElement component) node).

(** The card element found in a mounted node. *)
Definition cardOf (doc : Document) (node : nat) : option Element :=
  match nodes doc !! node with
  | Some n => cardElement n
  | None => None
  end.

(** Dispatch of a click and of a keydown event to the card element of a
    mounted node: the handler property runs when it is set. *)
Definition click (doc : Document) (node : nat) (host : list Signal)
  : Completion (list Signal) :=
  match cardOf doc node with
  | Some {| onclick := Some handler |} => handler host
  | _ => Normal host
  end.

Definition keydown (doc : Document) (node : nat) (e : KeyboardEvent.t)
  (host : list Signal) : Completion (KeyboardEvent.t * list Signal) :=
  match cardOf doc node with
  | Some {| onkeydown := Some handler |} => handler e host
  | _ => Normal (e, host)
  end.

End Card.

(** A runtime for the examples: it parses no string and renders no digits
    of its own, so the examples use numbers rendered by [toFixed] alone,
    and its selector lookup finds the card element. *)
Definition testRuntime : Runtime :=
  {| StringToNumber := fun _ => nan;
     PositiveToString := fun _ => "?";
     querySelectorMatches := fun _ _ => Normal true |}.

(** * Vocabulary of the properties *)

(** Values whose conversion to a primitive succeeds: an object of the
    payload converts unless it has an own property [toString], and an array
    converts when its elements do. *)
Fixpoint convertible (v : JSValue) : bool :=
  match v with
  | JSObject props => negb (hasOwnProperty props "toString")
  | JSArray elems => forallb convertible elems
  | _ => true
  end.

Definition isNullish (v : JSValue) : bool :=
  match v with
  | JSUndefined | JSNull => true
  | _ => false
  end.

(** A number rendered with exactly [f] decimals: an optional minus sign,
    one digit or more, a point, and [f] digits. *)
Definition isDigit (c : ascii) : bool :=
  (48 <=? nat_of_ascii c)%nat && (nat_of_ascii c <=? 57)%nat.

Fixpoint allDigits (s : string) : bool :=
  match s with
  | EmptyString => true
  | String c r => isDigit c && allDigits r
  end.

Fixpoint splitPoint (s : string) : option (string * string) :=
  match s with
  | EmptyString => None
  | String c r =>
      if Ascii.eqb c "." then Some (EmptyString, r)
      else match splitPoint r with
           | Some (a, b) => Some (String c a, b)
           | None => None
           end
  end.

Definition isUnsignedFixed (f : nat) (s : string) : bool :=
  match splitPoint s with
  | Some (a, b) =>
      (0 <? String.length a)%nat && allDigits a && allDigits b
      && (String.length b =? f)%nat
  | None => false
  end.

Definition isFixedDecimal (f : nat) (s : string) : bool :=
  match s with
  | String "-" r => isUnsignedFixed f r
  | _ => isUnsignedFixed f s
  end.

(** The numbers that [toFixed] renders in fixed notation: the finite ones
    of magnitude below [10^21]. *)
Definition fixedRange (x : float) : bool :=
  match Prim2SF x with
  | S754_zero _ => true
  | S754_finite _ m e => negb (atLeast1e21 m e)
  | S754_nan | S754_infinity _ => false
  end.

(** [v.k] as a value, [undefined] where the read finds nothing. *)
Definition propertyOf (v : JSValue) (k : string) : JSValue :=
  match v with
  | JSObject props =>
      match getOwn props k with
      | Some x => x
      | None => JSUndefined
      end
  | _ => JSUndefined
  end.

(** A metric entry that the row loop renders: not [null] or [undefined]
    itself, with a label and a value that are absent or convert to a
    primitive. *)
Definition tolerated (metric : JSValue) : bool :=
  negb (isNullish metric)
  && convertible (propertyOf metric "label")
  && convertible (propertyOf metric "value").

(** The selection token in the words of the specification, with presence
    read as truthiness: the id of the data when it is truthy, else its name
    when that is truthy, else [null]. *)
Definition selectionToken (data : JSValue) : JSValue :=
  let id := propertyOf data "id" in
  let name := propertyOf data "name" in
  if ToBoolean id then id else if ToBoolean name then name else JSNull.

(** The two calls that one activation makes. *)
Definition selectionSignals (token : JSValue) : list Signal :=
  [setStateValue "selected" token; setTriggerValue "clicked" token].

Section RowsVocabulary.
Context {rt : Runtime}.

(** The rows of the entries one by one, in the order of the entries: the
    order-preserving map that the row loop is compared with. *)
Fixpoint rowsFrom (metricsLength : nat) (elems : list JSValue) (index : nat)
  : Completion (list string) :=
  match elems with
  | [] => Normal []
  | metric :: rest =>
      let* row := metricRow metricsLength metric index in
      let* rows := rowsFrom metricsLength rest (S index) in
      Normal (row :: rows)
  end.

End RowsVocabulary.

(** ** Inputs of the examples *)

(** The data of the example of the specification. *)
Definition exampleData : JSValue :=
  JSObject
    [("name", JSString "Model A"); ("id", JSString "m1");
     ("recommended", JSBoolean true);
     ("metrics",
      JSArray
        [JSObject [("label", JSString "Accuracy"); ("value", JSNumber 0);
                   ("format", JSString "PERCENT")];
         JSObject [("label", JSString "Cost"); ("value", JSNumber 1500);
                   ("format", JSString "DOLLAR")]])].

(** A document with one element, the mount point. *)
Definition hostDocument : Document :=
  {| nodes := {[ 0%nat := {| innerHTML := EmptyString;
                             cardElement := None |} ]};
     childNodes := ∅ |}.

Definition exampleComponent : Component :=
  {| parentElement := Some 0%nat; data := exampleData; key := "k1" |}.

Definition otherComponent : Component :=
  {| parentElement := Some 0%nat;
     data := JSObject [("name", JSString "Model B")];
     key := "k2" |}.

Definition spaceKey : KeyboardEvent.t :=
  {| KeyboardEvent.key := " "; KeyboardEvent.defaultPrevented := false |}.

(** ** Vocabulary of the further properties *)

(** A value of [m.metrics] that the row loop renders: an array of entries
    that render, or a falsy value, which [|| []] replaces by no entry. *)
Definition renderableMetrics (ms : JSValue) : bool :=
  match ms with
  | JSArray elems => forallb tolerated elems
  | _ => negb (ToBoolean ms)
  end.

(** A document whose child lists name nodes of the document only. *)
Definition wellFormed (doc : Document) : Prop :=
  forall p n : nat, n ∈ children doc p -> n ∈ dom (nodes doc).

(** The document after a mount: one new node with its markup and card
    element, appended to the children of the mount point. *)
Definition mountedDocument (doc : Document) (p node : nat) (html : string)
  (card : option Element) : Document :=
  {| nodes := <[node := {| innerHTML := html; cardElement := card |}]>
                (nodes doc);
     childNodes := <[p := (children doc p ++ [node])%list]>
                     (childNodes doc) |}.

(** The class and the border of the row at [index] among [metricsLength]
    rows. *)
Definition rowClass (metricsLength index : nat) : string :=
  if Nat.eqb index (metricsLength - 1) then "mc-row-last" else EmptyString.

Definition rowBorder (metricsLength index : nat) : string :=
  if Nat.eqb index (metricsLength - 1) then "border-bottom:none;"
  else "border-bottom:1px solid rgba(0,0,0,.08);".

(** The metrics of the example, an entry with the label 0, and a
    component with no data. *)
Definition exampleMetrics : list JSValue :=
  [JSObject [("label", JSString "Accuracy"); ("value", JSNumber 0);
             ("format", JSString "PERCENT")];
   JSObject [("label", JSString "Cost"); ("value", JSNumber 1500);
             ("format", JSString "DOLLAR")]].

Definition zeroLabelMetric : JSValue :=
  JSObject [("label", JSNumber 0); ("value", JSNumber 1500);
            ("format", JSString "DOLLAR")].

Definition blankComponent : Component :=
  {| parentElement := Some 0%nat; data := JSNull; key := "k0" |}.

(** The example component without a mount point. *)
Definition unmountableComponent : Component :=
  {| parentElement := None; data := exampleData; key := "k1" |}.

(** ** The slots of a row, and a lookup that can fail *)

(** The row template around its two slots: what precedes the label, what
    stands between the label and the value, and what follows the value. *)
Definition rowHead (borderClass borderStyle : string) : string :=
  cat [nl; "      <div class="; dq; borderClass; dq; " style="; dq;
       "display:flex;justify-content:space-between;align-items:center;"; nl;
       "                                        padding:"; rowPadding; ";";
       borderStyle; dq; ">"; nl; "        <span style="; dq; "font-size:";
       labelSize; ";color:"; labelColor; ";"; dq; ">"].

Definition rowMiddle : string :=
  cat ["</span>"; nl; "        <span style="; dq; "font-size:"; valueSize;
       ";font-weight:"; valueWeight; ";color:"; valueColor; ";"; dq; ">"; nl;
       "          "].

Definition rowTail : string :=
  cat [nl; "        </span>"; nl; "      </div>"; nl; "    "].

(** Three entries, and two entries whose first value carries the text that
    separates two rows: the texts are put into the markup as they are. *)
Definition threeEntries : list JSValue :=
  [JSObject [("label", JSString "A"); ("value", JSString "1");
             ("format", JSString "STRING")];
   JSObject [("label", JSString "B"); ("value", JSString "2");
             ("format", JSString "STRING")];
   JSObject [("label", JSString "C"); ("value", JSString "3");
             ("format", JSString "STRING")]].

Definition twoEntries : list JSValue :=
  [JSObject [("label", JSString "A");
             ("value",
              JSString ("1" +:+ rowTail
                        +:+ rowHead EmptyString
                              "border-bottom:1px solid rgba(0,0,0,.08);"
                        +:+ "B" +:+ rowMiddle +:+ "2"));
             ("format", JSString "STRING")];
   JSObject [("label", JSString "C"); ("value", JSString "3");
             ("format", JSString "STRING")]].





(** * Properties *)

(** ** Conversions *)

Section ConversionFacts.
Context {rt : Runtime}.

Lemma isNormal_bindC {A B : Type} (c : Completion A) (k : A -> Completion B) :
  isNormal (bindC c k)
  = match c with Normal a => isNormal (k a) | Throw _ => false end.
Proof. destruct c; reflexivity. Qed.

(** The preferred type makes no difference on the values of the payload:
    [valueOf] never yields a primitive. *)
Lemma OrdinaryToPrimitive_hint (o : JSValue) (h : Hint) :
  OrdinaryToPrimitive ToString o h = OrdinaryToPrimitive ToString o HintString.
Proof.
  destruct h; [ | reflexivity ].
  destruct o as [ | | b | x | s | elems | props ]; try reflexivity.
  unfold OrdinaryToPrimitive; simpl.
  destruct (hasOwnProperty props "valueOf"),
           (hasOwnProperty props "toString"); reflexivity.
Qed.

Lemma ToPrimitive_hint (v : JSValue) (h : Hint) :
  ToPrimitive v h = ToPrimitive v HintString.
Proof.
  unfold ToPrimitive; destruct (isObject v); [ | reflexivity ].
  apply OrdinaryToPrimitive_hint.
Qed.

(** ToString is ToPrimitive with hint string followed by the rendering of
    the primitive. *)
Lemma ToString_unfold (v : JSValue) :
  ToString v = (let* p := ToPrimitive v HintString in ToStringPrimitive p).
Proof. destruct v; reflexivity. Qed.

(** A conversion to a primitive that succeeds yields a string when the
    value is an object or an array, and the value itself otherwise. *)
Lemma ToPrimitive_result (v p : JSValue) :
  ToPrimitive v HintString = Normal p ->
  isObject p = false /\ (isObject v = false -> p = v).
Proof.
  destruct v as [ | | b | x | s | elems | props ]; unfold ToPrimitive; simpl;
    try (intros H; injection H as <-; split; [ reflexivity | intros _; reflexivity ]).
  - unfold OrdinaryToPrimitive; simpl.
    destruct (ArrayJoin ToString elems) as [ s | e ]; simpl.
    + intros H; injection H as <-; split; [ reflexivity | discriminate ].
    + discriminate.
  - unfold OrdinaryToPrimitive; simpl.
    destruct (hasOwnProperty props "toString"); simpl.
    + destruct (hasOwnProperty props "valueOf"); simpl; discriminate.
    + intros H; injection H as <-; split; [ reflexivity | discriminate ].
Qed.

Lemma ToStringPrimitive_normal (p : JSValue) :
  isObject p = false -> exists s, ToStringPrimitive p = Normal s.
Proof. destruct p; simpl; try discriminate; eauto. Qed.

Lemma ToNumberPrimitive_normal (p : JSValue) :
  isObject p = false -> exists x, ToNumberPrimitive p = Normal x.
Proof. destruct p; simpl; try discriminate; eauto. Qed.

(** [Number(v)] and [String(v)] succeed on the same values, and throw the
    same error on the others. *)
Lemma ToNumber_ToString (v : JSValue) :
  match ToString v with
  | Normal _ => exists x, ToNumber v = Normal x
  | Throw e => ToNumber v = Throw e
  end.
Proof.
  rewrite ToString_unfold. unfold ToNumber.
  rewrite (ToPrimitive_hint v HintNumber).
  destruct (ToPrimitive v HintString) as [ p | e ] eqn:Hp; simpl;
    [ | reflexivity ].
  destruct (ToPrimitive_result _ _ Hp) as [Hprim _].
  destruct (ToStringPrimitive_normal p Hprim) as [s ->].
  exact (ToNumberPrimitive_normal p Hprim).
Qed.

Lemma ArrayJoin_normal (elems : list JSValue) :
  Forall (fun v => isNormal (ToString v) = convertible v) elems ->
  isNormal (ArrayJoin ToString elems) = forallb convertible elems.
Proof.
  induction 1 as [ | e rest He _ IH ]; [ reflexivity | ].
  cbn [ArrayJoin forallb] in *.
  assert (Hnext : isNormal (match e with
                            | JSUndefined | JSNull => Normal EmptyString
                            | _ => ToString e
                            end) = convertible e).
  { destruct e; try exact He; reflexivity. }
  destruct (match e with
            | JSUndefined | JSNull => Normal EmptyString
            | _ => ToString e
            end) as [ next | err ]; simpl in *; rewrite <- Hnext; simpl;
    [ | reflexivity ].
  destruct rest as [ | e' rest' ]; [ reflexivity | ].
  rewrite <- IH. destruct (ArrayJoin ToString (e' :: rest')); reflexivity.
Qed.

(** [String(v)] returns exactly on the convertible values. *)
Lemma ToString_normal (v : JSValue) : isNormal (ToString v) = convertible v.
Proof.
  induction v as [ | | b | x | s | elems IH | props _ ] using JSValue_deep_ind;
    try reflexivity.
  - change (convertible (JSArray elems)) with (forallb convertible elems).
    rewrite <- (ArrayJoin_normal elems IH).
    cbn [ToString]. unfold OrdinaryToPrimitive; simpl.
    destruct (ArrayJoin ToString elems); reflexivity.
  - cbn [ToString convertible]. unfold OrdinaryToPrimitive; simpl.
    destruct (hasOwnProperty props "toString"),
             (hasOwnProperty props "valueOf"); reflexivity.
Qed.

Lemma ToString_throws (v : JSValue) :
  forall e : JSError, ToString v = Throw e -> e = TypeError.
Proof.
  induction v as [ | | b | x | s | elems IH | props _ ] using JSValue_deep_ind;
    intros e; try discriminate.
  - cbn [ToString]. unfold OrdinaryToPrimitive; simpl.
    assert (Hj : forall err, ArrayJoin ToString elems = Throw err ->
                             err = TypeError).
    { induction IH as [ | v rest Hv _ IHrest ]; [ discriminate | ].
      cbn [ArrayJoin]. intros err.
      destruct (match v with
                | JSUndefined | JSNull => Normal EmptyString
                | _ => ToString v
                end) as [ next | err' ] eqn:Hnext; simpl.
      - destruct rest as [ | v' rest' ]; [ discriminate | ].
        destruct (ArrayJoin ToString (v' :: rest')) as [ r | err'' ]; simpl;
          [ discriminate | ].
        intros H; injection H as <-. apply IHrest; reflexivity.
      - intros H; injection H as <-.
        destruct v; try discriminate; apply Hv; exact Hnext. }
    destruct (ArrayJoin ToString elems) as [ s | err ]; simpl;
      [ discriminate | ].
    intros H; injection H as <-. apply Hj; reflexivity.
  - cbn [ToString]. unfold OrdinaryToPrimitive; simpl.
    destruct (hasOwnProperty props "toString"),
             (hasOwnProperty props "valueOf"); simpl;
      intros H; try discriminate; injection H as <-; reflexivity.
Qed.

Lemma ToNumber_normal (v : JSValue) : isNormal (ToNumber v) = convertible v.
Proof.
  rewrite <- ToString_normal.
  pose proof (ToNumber_ToString v) as H.
  destruct (ToString v); [ destruct H as [x ->] | rewrite H ]; reflexivity.
Qed.

Lemma nullish_convertible (v d : JSValue) :
  convertible d = true -> convertible (nullish v d) = convertible v.
Proof. destruct v; simpl; auto. Qed.

End ConversionFacts.

(** ** Renderings of numbers *)

Lemma length_append (a b : string) :
  String.length (a +:+ b) = (String.length a + String.length b)%nat.
Proof. induction a as [ | c a IH ]; simpl; [ reflexivity | now rewrite IH ]. Qed.

Lemma allDigits_append (a b : string) :
  allDigits (a +:+ b) = allDigits a && allDigits b.
Proof.
  induction a as [ | c a IH ]; simpl; [ reflexivity | ].
  rewrite IH. now rewrite andb_assoc.
Qed.

Lemma length_zeros (n : nat) : String.length (zeros n) = n.
Proof. induction n; simpl; congruence. Qed.

Lemma allDigits_zeros (n : nat) : allDigits (zeros n) = true.
Proof. induction n; simpl; auto. Qed.

Lemma length_takeS (n : nat) (s : string) :
  String.length (takeS n s) = Nat.min n (String.length s).
Proof.
  revert s; induction n as [ | n IH ]; intros [ | c r ]; simpl; auto.
Qed.

Lemma length_dropS (n : nat) (s : string) :
  String.length (dropS n s) = (String.length s - n)%nat.
Proof.
  revert s; induction n as [ | n IH ]; intros [ | c r ]; simpl; auto.
Qed.

Lemma allDigits_takeS (n : nat) (s : string) :
  allDigits s = true -> allDigits (takeS n s) = true.
Proof.
  revert s; induction n as [ | n IH ]; intros [ | c r ]; simpl; auto.
  intros [Hc Hr]%andb_prop. rewrite Hc; simpl; auto.
Qed.

Lemma allDigits_dropS (n : nat) (s : string) :
  allDigits s = true -> allDigits (dropS n s) = true.
Proof.
  revert s; induction n as [ | n IH ]; intros [ | c r ]; simpl; auto.
  intros [_ Hr]%andb_prop. auto.
Qed.

Lemma allDigits_uint (d : Decimal.uint) :
  allDigits (NilEmpty.string_of_uint d) = true.
Proof. induction d; simpl; auto. Qed.

Lemma length_uint (d : Decimal.uint) :
  d <> Decimal.Nil -> (0 < String.length (NilEmpty.string_of_uint d))%nat.
Proof. destruct d; simpl; try congruence; lia. Qed.

Lemma digitsOfZ_digits (n : Z) :
  allDigits (digitsOfZ n) = true /\ (0 < String.length (digitsOfZ n))%nat.
Proof.
  unfold digitsOfZ, NilZero.string_of_uint.
  destruct (N.to_uint (Z.to_N n)) eqn:E;
    try (split; [ apply allDigits_uint | apply length_uint; discriminate ]).
  split; [ reflexivity | simpl; lia ].
Qed.

(** Digits up to a point are split at that point. *)
Lemma splitPoint_digits (a b : string) :
  allDigits a = true -> splitPoint (a +:+ "." +:+ b) = Some (a, b).
Proof.
  induction a as [ | c a IH ]; simpl; [ reflexivity | ].
  intros [Hc Ha]%andb_prop. rewrite (IH Ha).
  destruct (Ascii.eqb_spec c "."); [ subst c; discriminate | reflexivity ].
Qed.

(** The digits laid out by [toFixed] form a number with exactly [f]
    decimals. *)
Lemma fixedDigits_fixed (n : Z) (f : nat) :
  (0 < f)%nat -> isUnsignedFixed f (fixedDigits n f) = true.
Proof.
  intros Hf. unfold fixedDigits.
  destruct (digitsOfZ_digits n) as [Hd Hl].
  set (m0 := digitsOfZ n) in *.
  set (m := if (String.length m0 <=? f)%nat
            then zeros (f + 1 - String.length m0) +:+ m0 else m0).
  set (k := Nat.max (String.length m0) (f + 1)).
  assert (Hm : allDigits m = true).
  { subst m. destruct (String.length m0 <=? f)%nat; [ | exact Hd ].
    rewrite allDigits_append, allDigits_zeros, Hd. reflexivity. }
  assert (Hk : String.length m = k).
  { subst m k. destruct (Nat.leb_spec (String.length m0) f).
    - rewrite length_append, length_zeros. lia.
    - lia. }
  destruct f as [ | f' ]; [ lia | ].
  unfold isUnsignedFixed.
  rewrite splitPoint_digits by (apply allDigits_takeS; exact Hm).
  rewrite allDigits_takeS, allDigits_dropS by exact Hm.
  rewrite length_takeS, length_dropS, Hk.
  assert (H1 : (0 <? Nat.min (k - S f') k)%nat = true)
    by (apply Nat.ltb_lt; subst k; lia).
  assert (H2 : (k - (k - S f') =? S f')%nat = true)
    by (apply Nat.eqb_eq; subst k; lia).
  rewrite H1, H2. reflexivity.
Qed.

Lemma isFixedDecimal_sign (s : bool) (f : nat) (body : string) :
  isUnsignedFixed f body = true ->
  isFixedDecimal f (signString s +:+ body) = true.
Proof.
  intros H. destruct s; simpl; [ exact H | ].
  destruct body as [ | c r ]; [ exact H | ].
  simpl. destruct c as [[] [] [] [] [] [] [] []]; try exact H.
  (* a body that starts with a minus sign is not unsigned *)
  unfold isUnsignedFixed in H. simpl in H.
  destruct (splitPoint r) as [ [a b] | ]; discriminate.
Qed.

Section RenderingFacts.
Context {rt : Runtime}.

(** In its fixed range [toFixed] renders with exactly [f] decimals. *)
Lemma toFixed_fixed (x : float) (f : nat) :
  (0 < f)%nat -> fixedRange x = true -> isFixedDecimal f (toFixed x f) = true.
Proof.
  intros Hf. unfold fixedRange, toFixed.
  destruct (Prim2SF x) as [ s | s | | s m e ]; try discriminate.
  - intros _. apply (isFixedDecimal_sign false). now apply fixedDigits_fixed.
  - intros Hr. apply negb_true_iff in Hr. rewrite Hr.
    apply isFixedDecimal_sign. now apply fixedDigits_fixed.
Qed.

(** Outside of it the rendering of a number that is not finite has no
    decimals at all. *)
Lemma toFixed_not_finite (x : float) (f : nat) :
  match Prim2SF x with
  | S754_nan => toFixed x f = "NaN"
  | S754_infinity s => toFixed x f = signString s +:+ "Infinity"
  | _ => True
  end.
Proof.
  unfold toFixed, NumberToString.
  destruct (Prim2SF x); auto.
Qed.

End RenderingFacts.

(** The integer that [toFixed] lays out is the nearest one to the scaled
    number, the larger of the two when the number is half way. *)
Lemma scaledRound_nearest (m : positive) (e : Z) (f : nat) :
  let n := scaledRound m e f in
  (0 <= e -> n = Z.pos m * 2 ^ e * 10 ^ Z.of_nat f)
  /\ (e < 0 ->
      2 ^ (- e) * (2 * n - 1) <= 2 * (Z.pos m * 10 ^ Z.of_nat f)
      /\ 2 * (Z.pos m * 10 ^ Z.of_nat f) < 2 ^ (- e) * (2 * n + 1)).
Proof.
  unfold scaledRound. split.
  - intros He. apply Z.leb_le in He. rewrite He. reflexivity.
  - intros He. destruct (Z.leb_spec 0 e) as [ Hle | _ ]; [ lia | ].
    set (M := Z.pos m * 10 ^ Z.of_nat f).
    set (D := 2 ^ (- e)).
    assert (HD : 0 < D) by (apply Z.pow_pos_nonneg; lia).
    replace (2 ^ (1 - e)) with (2 * D)
      by (unfold D; replace (1 - e) with (Z.succ (- e)) by lia;
          rewrite Z.pow_succ_r by lia; reflexivity).
    replace (2 * Z.pos m * 10 ^ Z.of_nat f) with (2 * M) by (unfold M; lia).
    pose proof (Z.div_mod (2 * M + D) (2 * D) ltac:(lia)) as Hdm.
    pose proof (Z.mod_pos_bound (2 * M + D) (2 * D) ltac:(lia)) as Hr.
    set (q := (2 * M + D) / (2 * D)) in *.
    split; nia.
Qed.

Lemma SFcompare_antisym (f1 f2 : spec_float) (c : comparison) :
  SFcompare f1 f2 = Some c -> SFcompare f2 f1 = Some (CompOpp c).
Proof.
  destruct f1 as [ s1 | s1 | | s1 m1 e1 ], f2 as [ s2 | s2 | | s2 m2 e2 ];
    simpl; try discriminate;
    try (destruct s1; intros H; injection H as <-; reflexivity);
    try (destruct s2; intros H; injection H as <-; reflexivity);
    try (destruct s1, s2; intros H; injection H as <-; reflexivity).
  intros H; injection H as <-. f_equal.
  pose proof (Pos.compare_cont_antisym m1 m2 Eq) as Hm. simpl in Hm.
  destruct s1, s2; try reflexivity;
    rewrite (Z.compare_antisym e1 e2);
    destruct (e1 ?= e2)%Z; simpl; try reflexivity;
    rewrite <- Hm; destruct (Pos.compare_cont Eq m1 m2); reflexivity.
Qed.

(** For a number, not to reach a threshold is to be below it. *)
Lemma below_threshold (threshold y : float) :
  PrimFloat.is_nan threshold = false ->
  PrimFloat.is_nan y = false ->
  PrimFloat.leb threshold y = false ->
  PrimFloat.ltb y threshold = true.
Proof.
  unfold PrimFloat.is_nan.
  rewrite !FloatAxioms.eqb_spec, FloatAxioms.leb_spec, FloatAxioms.ltb_spec.
  unfold SFeqb, SFleb, SFltb.
  intros Ht Hy.
  destruct (SFcompare (Prim2SF threshold) (Prim2SF y)) as [ c | ] eqn:Hc.
  - rewrite (SFcompare_antisym _ _ _ Hc). destruct c; simpl; congruence.
  - destruct (Prim2SF threshold), (Prim2SF y); simpl in *;
      try discriminate.
Qed.

Section SignFacts.
Context {rt : Runtime}.

(** The rendering of a negative number starts with the minus sign. *)
Lemma toFixed_negative (y : float) (f : nat) :
  PrimFloat.ltb y 0 = true -> exists r, toFixed y f = "-" +:+ r.
Proof.
  rewrite FloatAxioms.ltb_spec. unfold toFixed, NumberToString, SFltb.
  change (Prim2SF 0) with (S754_zero false).
  destruct (Prim2SF y) as [ s | s | | s m e ]; simpl; try discriminate.
  - destruct s; [ eauto | discriminate ].
  - destruct s; [ | discriminate ]. intros _. simpl. eauto.
Qed.

End SignFacts.

(** ** The formatter *)

Section FormatterFacts.
Context {rt : Runtime}.

(** With the kind STRING, and with any kind that is none of the three
    numeric ones, the switch ends in [String(value ?? "")]; the number
    computed before the switch is not used, and its conversion fails only
    where that of the string fails, with the same error. *)
Lemma formatMetricValue_passthrough (v format : JSValue) :
  strictEqualsString format "PERCENT" = false ->
  strictEqualsString format "DECIMAL" = false ->
  strictEqualsString format "DOLLAR" = false ->
  formatMetricValue v format = ToString (nullish v (JSString EmptyString)).
Proof.
  intros Hp Hd Hk. unfold formatMetricValue. rewrite Hp, Hd, Hk.
  assert (H : forall k : float -> Completion string,
             (forall x, k x = ToString (nullish v (JSString EmptyString))) ->
             bindC (ToNumber (nullish v (JSNumber 0))) k
             = ToString (nullish v (JSString EmptyString))).
  { intros k Hk'.
    destruct v; try (simpl; apply Hk');
      match goal with
      | |- context [ToNumber (nullish ?w _)] =>
          change (nullish w (JSNumber 0)) with w;
          change (nullish w (JSString EmptyString)) with w in *;
          pose proof (ToNumber_ToString w) as Hw;
          destruct (ToString w) as [ s | e ] eqn:Hs;
          [ destruct Hw as [x ->]; simpl; rewrite Hk'; reflexivity
          | rewrite Hw; reflexivity ]
      end. }
  destruct (strictEqualsString format "STRING"); apply H; reflexivity.
Qed.

Lemma formatMetricValue_normal (v format : JSValue) :
  isNormal (formatMetricValue v format) = convertible v.
Proof.
  unfold formatMetricValue. rewrite isNormal_bindC.
  pose proof (ToNumber_normal (nullish v (JSNumber 0))) as Hn.
  rewrite nullish_convertible in Hn by reflexivity.
  destruct (ToNumber (nullish v (JSNumber 0))) as [ x | e ];
    simpl in Hn; [ | exact Hn ].
  assert (Hs : isNormal (ToString (nullish v (JSString EmptyString))) = true).
  { rewrite ToString_normal, nullish_convertible by reflexivity.
    symmetry; exact Hn. }
  rewrite <- Hn.
  repeat match goal with
         | |- context [if ?b then _ else _] => destruct b
         end; try reflexivity; exact Hs.
Qed.

Lemma formatMetricValue_throws (v format : JSValue) (e : JSError) :
  formatMetricValue v format = Throw e -> e = TypeError.
Proof.
  unfold formatMetricValue.
  destruct (ToNumber (nullish v (JSNumber 0))) as [ x | e' ] eqn:Hn; simpl.
  - repeat match goal with
           | |- context [if ?b then _ else _] => destruct b
           end; try discriminate; apply ToString_throws.
  - intros H; injection H as <-.
    pose proof (ToNumber_ToString (nullish v (JSNumber 0))) as Hw.
    destruct (ToString (nullish v (JSNumber 0))) as [ s | e'' ] eqn:Hs.
    + destruct Hw as [x Hx]; congruence.
    + apply ToString_throws in Hs. congruence.
Qed.

(** C1, as amended: with the kind DOLLAR and the number [x] that
    [Number(value ?? 0)] yields, the formatter returns the literal [$0.0]
    when [x] is zero; otherwise, when the magnitude of [x] reaches
    1,000,000, a dollar sign, [x / 1,000,000] rendered by [toFixed(1)] and
    the suffix [M]; when it reaches 1,000 only, a dollar sign,
    [x / 1,000] rendered by [toFixed(1)] and the suffix [K]; otherwise a
    dollar sign and [x] rendered by [toFixed(1)].  The number rendered is
    [x] or its quotient, never the absolute value; its rendering has
    exactly one decimal whenever that number is finite and below [10^21] in
    magnitude, and starts with a minus sign whenever it is negative.  An
    absent or null value counts as 0. *)
Theorem dollar_format (v : JSValue) (x : float) :
  ToNumber (nullish v (JSNumber 0)) = Normal x ->
  let out := formatMetricValue v (JSString "DOLLAR") in
  let absValue := PrimFloat.abs x in
  (PrimFloat.eqb x 0 = true -> out = Normal "$0.0")
  /\ (PrimFloat.eqb x 0 = false ->
      PrimFloat.leb 1000000 absValue = true ->
      out = Normal ("$" +:+ toFixed (x / 1000000) 1 +:+ "M"))
  /\ (PrimFloat.eqb x 0 = false ->
      PrimFloat.leb 1000000 absValue = false ->
      PrimFloat.leb 1000 absValue = true ->
      out = Normal ("$" +:+ toFixed (x / 1000) 1 +:+ "K"))
  /\ (PrimFloat.eqb x 0 = false ->
      PrimFloat.leb 1000000 absValue = false ->
      PrimFloat.leb 1000 absValue = false ->
      out = Normal ("$" +:+ toFixed x 1))
  /\ (forall y : float,
        fixedRange y = true -> isFixedDecimal 1 (toFixed y 1) = true)
  /\ (forall y : float,
        PrimFloat.ltb y 0 = true -> exists r, toFixed y 1 = "-" +:+ r)
  /\ (isNullish v = true -> out = Normal "$0.0").
Proof.
  intros Hx out absValue. subst out absValue.
  split; [ | split; [ | split; [ | split; [ | split; [ | split ] ] ] ] ];
    try (unfold formatMetricValue; rewrite Hx; simpl).
  - intros ->. reflexivity.
  - intros -> ->. reflexivity.
  - intros -> -> ->. reflexivity.
  - intros -> -> ->. reflexivity.
  - intros y. apply toFixed_fixed. lia.
  - intros y. apply toFixed_negative.
  - intros Hn. destruct v; try discriminate Hn;
      simpl in Hx; injection Hx as <-; reflexivity.
Qed.

(** C2, as amended: with the kind PERCENT and the number [x] that
    [Number(value ?? 0)] yields, the formatter returns the empty string
    when [x] is zero, and otherwise [x] rendered by [toFixed(2)] followed
    by a percent sign; the rendering has exactly two decimals whenever [x]
    is finite and below [10^21] in magnitude.  An absent or null value
    counts as 0. *)
Theorem percent_format (v : JSValue) (x : float) :
  ToNumber (nullish v (JSNumber 0)) = Normal x ->
  let out := formatMetricValue v (JSString "PERCENT") in
  (PrimFloat.eqb x 0 = true -> out = Normal EmptyString)
  /\ (PrimFloat.eqb x 0 = false -> out = Normal (toFixed x 2 +:+ "%"))
  /\ (fixedRange x = true -> isFixedDecimal 2 (toFixed x 2) = true)
  /\ (isNullish v = true -> out = Normal EmptyString).
Proof.
  intros Hx out. subst out.
  split; [ | split; [ | split ] ];
    try (unfold formatMetricValue; rewrite Hx; simpl).
  - intros ->. reflexivity.
  - intros ->. reflexivity.
  - apply toFixed_fixed. lia.
  - intros Hn. destruct v; try discriminate Hn;
      simpl in Hx; injection Hx as <-; reflexivity.
Qed.

(** C3, as amended: the formatter returns a string for every kind
    whatsoever and every value that converts to a primitive, that is every
    value but an object with an own property [toString] and an array that
    holds one; on those it throws a TypeError.  An absent or null value is
    taken as 0 by the numeric kinds and as the empty string by the string
    kind. *)
Theorem formatter_total_on_convertible (v format : JSValue) :
  isNormal (formatMetricValue v format) = convertible v
  /\ (forall e, formatMetricValue v format = Throw e -> e = TypeError)
  /\ (isNullish v = true ->
      formatMetricValue v (JSString "PERCENT") = Normal EmptyString
      /\ formatMetricValue v (JSString "DECIMAL") = Normal "0.00"
      /\ formatMetricValue v (JSString "DOLLAR") = Normal "$0.0"
      /\ formatMetricValue v (JSString "STRING") = Normal EmptyString
      /\ formatMetricValue v (JSString "PERCENT")
         = formatMetricValue (JSNumber 0) (JSString "PERCENT")
      /\ formatMetricValue v (JSString "DECIMAL")
         = formatMetricValue (JSNumber 0) (JSString "DECIMAL")
      /\ formatMetricValue v (JSString "DOLLAR")
         = formatMetricValue (JSNumber 0) (JSString "DOLLAR")
      /\ formatMetricValue v (JSString "STRING")
         = formatMetricValue (JSString EmptyString) (JSString "STRING")).
Proof.
  split; [ apply formatMetricValue_normal | ].
  split; [ intros e; apply formatMetricValue_throws | ].
  destruct v; try discriminate; intros _; repeat split; reflexivity.
Qed.


End FormatterFacts.

(** Strips the characters of a known text off [r +:+ suffix]. *)
Ltac peel_string H r :=
  repeat (destruct r as [ | ? r ];
          [ try discriminate H
          | simpl in H; try discriminate H; injection H as ? H; subst ]).

(** [dollar_format] at the value 1500: the threshold 1,000 is reached. *)
Lemma dollar_format_witness :
  @ToNumber testRuntime (nullish (JSNumber 1500) (JSNumber 0)) = Normal 1500%float
  /\ @formatMetricValue testRuntime (JSNumber 1500) (JSString "DOLLAR")
     = Normal "$1.5K".
Proof.
  split; [ reflexivity | ].
  pose proof (@dollar_format testRuntime (JSNumber 1500) 1500%float eq_refl)
    as H.
  cbv zeta in H. destruct H as (_ & _ & H & _).
  apply H; reflexivity.
Defined.

(** C1 as stated fails on an infinite value, which the JSON number 1e999
    deserialises to: the formatter returns [$InfinityM], and what stands
    between the dollar sign and the suffix is not a number with one
    decimal. *)
Lemma dollar_infinity_not_one_decimal :
  (forall rt : Runtime,
      @formatMetricValue rt (JSNumber infinity) (JSString "DOLLAR")
      = Normal "$InfinityM")
  /\ PrimFloat.eqb infinity 0 = false
  /\ PrimFloat.leb 1000000 (PrimFloat.abs infinity) = true
  /\ ~ (exists r : string,
          "$InfinityM" = "$" +:+ r +:+ "M" /\ isFixedDecimal 1 r = true).
Proof.
  repeat split.
  intros [r [H Hr]]. simpl in H. injection H as H. symmetry in H.
  peel_string H r. discriminate Hr.
Qed.

(** [percent_format] at the value 12.5. *)
Lemma percent_format_witness :
  @ToNumber testRuntime (nullish (JSNumber 12.5) (JSNumber 0))
  = Normal 12.5%float
  /\ @formatMetricValue testRuntime (JSNumber 12.5) (JSString "PERCENT")
     = Normal "12.50%".
Proof.
  split; [ reflexivity | ].
  pose proof (@percent_format testRuntime (JSNumber 12.5) 12.5%float eq_refl)
    as H.
  cbv zeta in H. destruct H as (_ & H & _).
  apply H; reflexivity.
Defined.

(** C2 as stated fails on an infinite value: the formatter returns
    [Infinity%], and what stands before the percent sign is not a number
    with two decimals. *)
Lemma percent_infinity_not_two_decimals :
  (forall rt : Runtime,
      @formatMetricValue rt (JSNumber infinity) (JSString "PERCENT")
      = Normal "Infinity%")
  /\ PrimFloat.eqb infinity 0 = false
  /\ ~ (exists r : string,
          "Infinity%" = r +:+ "%" /\ isFixedDecimal 2 r = true).
Proof.
  repeat split.
  intros [r [H Hr]]. symmetry in H.
  peel_string H r. discriminate Hr.
Qed.

(** C3 as stated fails on an object of the payload that has a property
    named [toString]: [Number(value ?? 0)] throws before the switch,
    whatever the kind. *)
Lemma formatter_throws_on_own_toString :
  (forall rt : Runtime,
      @formatMetricValue rt (JSObject [("toString", JSNumber 1)])
        (JSString "STRING") = Throw TypeError)
  /\ ~ (forall (rt : Runtime) (v format : JSValue),
          exists s, @formatMetricValue rt v format = Normal s).
Proof.
  split; [ reflexivity | ].
  intros H.
  destruct (H testRuntime (JSObject [("toString", JSNumber 1)])
              (JSString "STRING")) as [s Hs].
  discriminate Hs.
Qed.



(** ** Metric rows *)

Lemma append_assoc (a b c : string) : (a +:+ b) +:+ c = a +:+ (b +:+ c).
Proof.
  induction a as [ | x a IH ]; [ reflexivity | ].
  change (String x ((a +:+ b) +:+ c) = String x (a +:+ (b +:+ c))).
  now rewrite IH.
Qed.

Lemma append_empty_r (a : string) : a +:+ EmptyString = a.
Proof.
  induction a as [ | x a IH ]; [ reflexivity | ].
  change (String x (a +:+ EmptyString) = String x a).
  now rewrite IH.
Qed.

Lemma cat_app (xs ys : list string) :
  cat (xs ++ ys)%list = cat xs +:+ cat ys.
Proof.
  induction xs as [ | x xs IH ]; [ reflexivity | ].
  change (x +:+ cat (xs ++ ys)%list = (x +:+ cat xs) +:+ cat ys).
  rewrite IH. symmetry. apply append_assoc.
Qed.

(** The row template is its head, the label, its middle, the value and its
    tail, in this order. *)
Lemma rowTemplate_slots (borderClass borderStyle labelText formattedValue
                         : string) :
  rowTemplate borderClass borderStyle labelText formattedValue
  = rowHead borderClass borderStyle +:+ labelText +:+ rowMiddle
    +:+ formattedValue +:+ rowTail.
Proof.
  unfold rowTemplate, rowHead, rowMiddle, rowTail.
  rewrite <- (append_empty_r labelText) at 2.
  rewrite <- (append_empty_r formattedValue) at 2.
  change (labelText +:+ EmptyString) with (cat [labelText]).
  change (formattedValue +:+ EmptyString) with (cat [formattedValue]).
  rewrite <- !cat_app. reflexivity.
Qed.

Lemma Get_propertyOf (v : JSValue) (k : string) :
  isNullish v = false -> Get v k = Normal (propertyOf v k).
Proof. destruct v; simpl; try discriminate; reflexivity. Qed.

Section RowFacts.
Context {rt : Runtime}.

(** The loop appends to the text it starts from the rows of the entries, in
    their order, and stops at the first entry whose row throws. *)
Lemma forEachFrom_rows (n : nat) (elems : list JSValue) :
  forall (index : nat) (acc : string),
    forEachFrom (metricRowCallback n) elems index acc
    = (let* rows := rowsFrom n elems index in Normal (acc +:+ cat rows)).
Proof.
  induction elems as [ | metric rest IH ]; intros index acc; simpl.
  - now rewrite append_empty_r.
  - unfold metricRowCallback at 1.
    destruct (metricRow n metric index) as [ row | e ]; simpl;
      [ | reflexivity ].
    rewrite IH.
    destruct (rowsFrom n rest (S index)) as [ rows | e ]; simpl;
      [ | reflexivity ].
    now rewrite append_assoc.
Qed.

Lemma rowsFrom_rows (n : nat) (elems : list JSValue) :
  forall (index : nat) (rows : list string),
    rowsFrom n elems index = Normal rows ->
    length rows = length elems
    /\ forall (i : nat) (metric : JSValue),
        elems !! i = Some metric ->
        exists row, rows !! i = Some row
                    /\ metricRow n metric (index + i) = Normal row.
Proof.
  induction elems as [ | metric rest IH ]; intros index rows; simpl.
  - intros H; injection H as <-. split; [ reflexivity | ].
    intros i m Hi; discriminate.
  - destruct (metricRow n metric index) as [ row | e ] eqn:Hrow; simpl;
      [ | discriminate ].
    destruct (rowsFrom n rest (S index)) as [ rows' | e ] eqn:Hrest; simpl;
      [ | discriminate ].
    intros H; injection H as <-.
    destruct (IH _ _ Hrest) as [Hlen Hnth].
    split; [ simpl; congruence | ].
    intros [ | i ] m Hi; simpl in *.
    + injection Hi as <-. exists row. rewrite Nat.add_0_r. auto.
    + destruct (Hnth i m Hi) as [r [Hr Hm]].
      exists r. split; [ exact Hr | ].
      replace (index + S i)%nat with (S index + i)%nat by lia. exact Hm.
Qed.

Lemma rowsFrom_normal (n : nat) (elems : list JSValue) :
  forall index : nat,
    (forall (i : nat) (metric : JSValue),
        elems !! i = Some metric ->
        isNormal (metricRow n metric (index + i)) = true) ->
    isNormal (rowsFrom n elems index) = true.
Proof.
  induction elems as [ | metric rest IH ]; intros index H; simpl;
    [ reflexivity | ].
  pose proof (H 0%nat metric eq_refl) as H0. rewrite Nat.add_0_r in H0.
  destruct (metricRow n metric index) as [ row | e ]; [ | discriminate ].
  simpl.
  assert (Hrest : isNormal (rowsFrom n rest (S index)) = true).
  { apply IH. intros i m Hi.
    replace (S index + i)%nat with (index + S i)%nat by lia.
    apply (H (S i) m Hi). }
  destruct (rowsFrom n rest (S index)); [ reflexivity | discriminate ].
Qed.

Lemma rows_render (elems : list JSValue) :
  (forall (i : nat) (metric : JSValue),
      elems !! i = Some metric ->
      isNormal (metricRow (length elems) metric i) = true) ->
  exists html, metricRowsHtml (JSArray elems) = Normal html.
Proof.
  intros H. unfold metricRowsHtml. rewrite forEachFrom_rows.
  pose proof (rowsFrom_normal (length elems) elems 0 H) as Hn.
  destruct (rowsFrom (length elems) elems 0) as [ rows | e ];
    [ simpl; eauto | discriminate ].
Qed.

(** A row that renders is the row template over the label of the entry and
    the value of the entry as the formatter renders it under the format of
    the entry. *)
Lemma metricRow_fields (n : nat) (metric : JSValue) (i : nat) (row : string) :
  metricRow n metric i = Normal row ->
  exists borderClass borderStyle labelText formattedValue,
    row = rowTemplate borderClass borderStyle labelText formattedValue
    /\ formatMetricValue (propertyOf metric "value")
         (propertyOf metric "format") = Normal formattedValue
    /\ ToString (JSOr (propertyOf metric "label") (JSString EmptyString))
       = Normal labelText.
Proof.
  unfold metricRow.
  destruct (isNullish metric) eqn:Hm.
  { destruct metric; discriminate. }
  rewrite !(Get_propertyOf metric _ Hm). simpl.
  destruct (formatMetricValue _ _) as [ formattedValue | e ]; simpl;
    [ | discriminate ].
  destruct (ToString _) as [ labelText | e ]; simpl; [ | discriminate ].
  intros H; injection H as <-. eauto 10.
Qed.

Lemma tolerated_row (n : nat) (metric : JSValue) (i : nat) :
  tolerated metric = true ->
  exists borderClass borderStyle labelText formattedValue,
    metricRow n metric i
    = Normal (rowTemplate borderClass borderStyle labelText formattedValue)
    /\ ToString (JSOr (propertyOf metric "label") (JSString EmptyString))
       = Normal labelText
    /\ formatMetricValue (propertyOf metric "value")
         (propertyOf metric "format") = Normal formattedValue.
Proof.
  unfold tolerated. intros H.
  apply andb_prop in H as [H Hvalue]. apply andb_prop in H as [Hm Hlabel].
  apply negb_true_iff in Hm.
  unfold metricRow. rewrite !(Get_propertyOf metric _ Hm). simpl.
  pose proof (formatMetricValue_normal (propertyOf metric "value")
                (propertyOf metric "format")) as Hf.
  rewrite Hvalue in Hf.
  destruct (formatMetricValue _ _) as [ formattedValue | e ];
    [ | discriminate ].
  pose proof (ToString_normal
                (JSOr (propertyOf metric "label") (JSString EmptyString)))
    as Hl.
  assert (Hc : convertible
                 (JSOr (propertyOf metric "label") (JSString EmptyString))
               = true).
  { unfold JSOr. destruct (ToBoolean _); [ exact Hlabel | reflexivity ]. }
  rewrite Hc in Hl.
  destruct (ToString _) as [ labelText | e ]; [ | discriminate ].
  simpl. eauto 10.
Qed.

Lemma tolerated_row_slots (n : nat) (metric : JSValue) (i : nat) :
  tolerated metric = true ->
  exists labelText formattedValue,
    metricRow n metric i
    = Normal (rowHead (rowClass n i) (rowBorder n i) +:+ labelText
              +:+ rowMiddle +:+ formattedValue +:+ rowTail)
    /\ ToString (JSOr (propertyOf metric "label") (JSString EmptyString))
       = Normal labelText
    /\ formatMetricValue (propertyOf metric "value")
         (propertyOf metric "format") = Normal formattedValue.
Proof.
  intros Ht.
  destruct (tolerated_row n metric i Ht)
    as (bc & bs & labelText & formattedValue & _ & Hl & Hf).
  exists labelText, formattedValue.
  split; [ | split; [ exact Hl | exact Hf ] ].
  unfold tolerated in Ht.
  apply andb_prop in Ht as [Ht _]. apply andb_prop in Ht as [Hm _].
  apply negb_true_iff in Hm.
  unfold metricRow. rewrite !(Get_propertyOf metric _ Hm). simpl.
  rewrite Hf, Hl. simpl. rewrite rowTemplate_slots. reflexivity.
Qed.

(** C6, as amended: on a list of entries that render (none of them null or
    absent, labels and values missing or convertible) the row loop is an
    order-preserving map.  The markup is the concatenation, in the order
    of the entries, of one fragment for each entry, as many fragments as
    entries; the fragment at position [i] is the row template with the
    label text of the entry at position [i] in its label slot and the
    value of that entry, as the formatter renders it, in its value slot.
    The texts are inserted as they are, so the markup by itself does not
    tell the number of entries. *)
Theorem metric_rows_order_preserving (elems : list JSValue) :
  Forall (fun metric => tolerated metric = true) elems ->
  exists rows : list string,
    metricRowsHtml (JSArray elems) = Normal (cat rows)
    /\ rowsFrom (length elems) elems 0 = Normal rows
    /\ length rows = length elems
    /\ forall (i : nat) (metric : JSValue),
        elems !! i = Some metric ->
        exists labelText formattedValue,
          rows !! i
          = Some (rowHead (rowClass (length elems) i)
                    (rowBorder (length elems) i)
                  +:+ labelText +:+ rowMiddle +:+ formattedValue
                  +:+ rowTail)
          /\ ToString (JSOr (propertyOf metric "label")
                         (JSString EmptyString)) = Normal labelText
          /\ formatMetricValue (propertyOf metric "value")
               (propertyOf metric "format") = Normal formattedValue.
Proof.
  intros Hall.
  assert (Hrow : forall (i : nat) (metric : JSValue),
             elems !! i = Some metric -> tolerated metric = true).
  { intros i metric Hi. rewrite Forall_forall in Hall. apply Hall.
    eapply list_elem_of_lookup_2; exact Hi. }
  assert (Hn : isNormal (rowsFrom (length elems) elems 0) = true).
  { apply rowsFrom_normal. intros i metric Hi. simpl.
    destruct (tolerated_row_slots (length elems) metric i (Hrow i metric Hi))
      as (l & f & -> & _). reflexivity. }
  destruct (rowsFrom (length elems) elems 0) as [ rows | e ] eqn:Hrows;
    [ | discriminate Hn ].
  exists rows.
  split; [ unfold metricRowsHtml; rewrite forEachFrom_rows, Hrows;
           reflexivity | ].
  split; [ reflexivity | ].
  destruct (rowsFrom_rows _ _ _ _ Hrows) as [Hlen Hnth].
  split; [ exact Hlen | ].
  intros i metric Hi.
  destruct (Hnth i metric Hi) as [row [Hr Hm]]. simpl in Hm.
  destruct (tolerated_row_slots (length elems) metric i (Hrow i metric Hi))
    as (labelText & formattedValue & Hslots & Hl & Hf).
  exists labelText, formattedValue.
  split; [ | split; [ exact Hl | exact Hf ] ].
  rewrite Hr. congruence.
Qed.

(** C8, as amended: a metrics list whose entries are not themselves null
    or absent, each with a label and a value that are missing or convert
    to a primitive, renders without an error, whatever the formats are.
    An entry without a label gets the empty label, an entry without a
    value gets what the formatter makes of an absent value, and an entry
    without a format gets its value as text. *)
Theorem malformed_entries_tolerated (elems : list JSValue) :
  Forall (fun metric => tolerated metric = true) elems ->
  (exists html, metricRowsHtml (JSArray elems) = Normal html)
  /\ forall (i : nat) (metric : JSValue),
      elems !! i = Some metric ->
      exists borderClass borderStyle labelText formattedValue,
        metricRow (length elems) metric i
        = Normal (rowTemplate borderClass borderStyle labelText
                    formattedValue)
        /\ ToString (JSOr (propertyOf metric "label") (JSString EmptyString))
           = Normal labelText
        /\ formatMetricValue (propertyOf metric "value")
             (propertyOf metric "format") = Normal formattedValue
        /\ (propertyOf metric "label" = JSUndefined ->
            labelText = EmptyString)
        /\ (propertyOf metric "value" = JSUndefined ->
            Normal formattedValue
            = formatMetricValue JSUndefined (propertyOf metric "format"))
        /\ (propertyOf metric "format" = JSUndefined ->
            Normal formattedValue
            = ToString (nullish (propertyOf metric "value")
                          (JSString EmptyString))).
Proof.
  intros Hall.
  assert (Hrow : forall (i : nat) (metric : JSValue),
             elems !! i = Some metric -> tolerated metric = true).
  { intros i metric Hi. rewrite Forall_forall in Hall. apply Hall.
    eapply list_elem_of_lookup_2; exact Hi. }
  split.
  - destruct (rows_render elems) as [html Hhtml].
    + intros i metric Hi.
      destruct (tolerated_row (length elems) metric i (Hrow i metric Hi))
        as (bc & bs & l & f & -> & _). reflexivity.
    + eauto.
  - intros i metric Hi.
    destruct (tolerated_row (length elems) metric i (Hrow i metric Hi))
      as (bc & bs & labelText & formattedValue & Hr & Hl & Hf).
    exists bc, bs, labelText, formattedValue.
    repeat split; try assumption.
    + intros Hu. rewrite Hu in Hl. simpl in Hl. congruence.
    + intros Hu. rewrite Hu in Hf. congruence.
    + intros Hu. rewrite Hu in Hf. rewrite <- Hf.
      apply formatMetricValue_passthrough; reflexivity.
Qed.

End RowFacts.

(** [malformed_entries_tolerated] at an entry with no field at all and an
    entry that is not an object. *)
Lemma malformed_entries_tolerated_witness :
  Forall (fun metric => tolerated metric = true)
    [JSObject []; JSString "stray"]
  /\ exists html,
      @metricRowsHtml testRuntime (JSArray [JSObject []; JSString "stray"])
      = Normal html.
Proof.
  assert (H : Forall (fun metric => tolerated metric = true)
                [JSObject []; JSString "stray"])
    by (repeat constructor).
  split; [ exact H | ].
  exact (proj1 (@malformed_entries_tolerated testRuntime _ H)).
Defined.

(** C8 as stated fails on an entry that is itself [null]: the read of
    [metric.value] throws, the loop stops, and the error leaves the
    component before anything is mounted. *)
Lemma null_entry_throws :
  (forall rt : Runtime, @metricRowsHtml rt (JSArray [JSNull]) = Throw TypeError)
  /\ (forall (rt : Runtime) (parent : option nat) (k : string)
             (doc : Document),
         @model_card rt
           {| parentElement := parent;
              data := JSObject [("metrics", JSArray [JSNull])];
              key := k |} doc
         = Throw TypeError).
Proof. split; reflexivity. Qed.

(** [metric_rows_order_preserving] on the two entries of the example. *)
Lemma metric_rows_order_preserving_witness :
  Forall (fun metric => tolerated metric = true) exampleMetrics
  /\ exists rows : list string,
      @metricRowsHtml testRuntime (JSArray exampleMetrics)
      = Normal (cat rows)
      /\ length rows = 2%nat.
Proof.
  assert (H : Forall (fun metric => tolerated metric = true) exampleMetrics)
    by (repeat constructor).
  split; [ exact H | ].
  destruct (@metric_rows_order_preserving testRuntime exampleMetrics H)
    as (rows & Hhtml & _ & Hlen & _).
  exists rows. split; [ exact Hhtml | exact Hlen ].
Defined.

(** C6 as stated fails twice.  A list with one entry that is [null] has no
    rendered output at all; and a list of two entries and a list of three
    render to one and the same markup, so the output does not hold
    exactly as many rows as the list has entries. *)
Lemma markup_does_not_count_entries :
  (forall rt : Runtime, @metricRowsHtml rt (JSArray [JSNull]) = Throw TypeError)
  /\ (forall rt : Runtime,
        @metricRowsHtml rt (JSArray twoEntries)
        = @metricRowsHtml rt (JSArray threeEntries))
  /\ (exists html : string,
        @metricRowsHtml testRuntime (JSArray threeEntries) = Normal html)
  /\ length twoEntries = 2%nat
  /\ length threeEntries = 3%nat.
Proof.
  split; [ reflexivity | ].
  split; [ intros rt; vm_compute; reflexivity | ].
  split; [ eexists; reflexivity | ].
  split; reflexivity.
Qed.

(** ** Selection *)

Lemma handleSelect_token (data : JSValue) (host : list Signal) :
  handleSelect (JSOr data (JSObject [])) host
  = Normal (host ++ selectionSignals (selectionToken data))%list.
Proof.
  unfold handleSelect, selectionToken, selectionSignals.
  assert (Hm : isNullish (JSOr data (JSObject [])) = false).
  { unfold JSOr. destruct data; simpl; try reflexivity;
      match goal with |- context [if ?b then _ else _] => destruct b end;
      reflexivity. }
  assert (Hp : forall k, propertyOf (JSOr data (JSObject [])) k
                         = propertyOf data k).
  { intros k. unfold JSOr. destruct (ToBoolean data) eqn:Hb; [ reflexivity | ].
    destruct data; try discriminate; reflexivity. }
  rewrite (Get_propertyOf _ "id" Hm), Hp. cbn [bindC].
  destruct (ToBoolean (propertyOf data "id")); cbn [bindC];
    [ reflexivity | ].
  rewrite (Get_propertyOf _ "name" Hm), Hp. cbn [bindC].
  unfold JSOr.
  destruct (ToBoolean (propertyOf data "name")); reflexivity.
Qed.

Lemma selectionToken_not_empty (data : JSValue) :
  selectionToken data <> JSString EmptyString.
Proof.
  unfold selectionToken.
  destruct (ToBoolean (propertyOf data "id")) eqn:Hid.
  - intros H; rewrite H in Hid; discriminate.
  - destruct (ToBoolean (propertyOf data "name")) eqn:Hname.
    + intros H; rewrite H in Hname; discriminate.
    + discriminate.
Qed.

(** C10: the fallback of the selection token is decided by truthiness.
    The handler emits the id when it is truthy, else the name when it is
    truthy, else [null]; the empty string and 0 are falsy, so such an id is
    passed over for the name, and the token is never the empty string. *)
Theorem selection_token_by_truthiness (data : JSValue) (host : list Signal) :
  let id := propertyOf data "id" in
  let name := propertyOf data "name" in
  exists token : JSValue,
    handleSelect (JSOr data (JSObject [])) host
    = Normal (host ++ [setStateValue "selected" token;
                       setTriggerValue "clicked" token])%list
    /\ (ToBoolean id = true -> token = id)
    /\ (ToBoolean id = false -> ToBoolean name = true -> token = name)
    /\ (ToBoolean id = false -> ToBoolean name = false -> token = JSNull)
    /\ ToBoolean (JSString EmptyString) = false
    /\ ToBoolean (JSNumber 0) = false
    /\ token <> JSString EmptyString.
Proof.
  intros id name. exists (selectionToken data).
  split; [ apply handleSelect_token | ].
  unfold selectionToken. fold id name.
  repeat split.
  - intros ->. reflexivity.
  - intros -> ->. reflexivity.
  - intros -> ->. reflexivity.
  - apply selectionToken_not_empty.
Qed.

(** ** Mount, activation and teardown *)

Lemma children_insert (doc : Document) (nodes' : gmap nat Node)
  (p q : nat) (l : list nat) :
  children {| nodes := nodes'; childNodes := <[p := l]> (childNodes doc) |} q
  = if decide (p = q) then l else children doc q.
Proof.
  unfold children; simpl. rewrite lookup_insert.
  destruct (decide (p = q)); reflexivity.
Qed.

Lemma removeChild_frame (parent node : nat) (doc : Document) :
  node ∈ children doc parent ->
  exists doc' : Document,
    removeChild (Some parent) node doc = Normal doc'
    /\ (node ∉ children doc' parent)
    /\ nodes doc' = nodes doc
    /\ children doc' parent = filter (fun n => n ≠ node) (children doc parent)
    /\ (forall q, q ≠ parent -> children doc' q = children doc q)
    /\ (forall q n, n ≠ node ->
                     (n ∈ children doc' q) <-> (n ∈ children doc q)).
Proof.
  intros Hin. unfold removeChild.
  destruct (decide (node ∈ children doc parent)) as [ _ | Hn ];
    [ | contradiction ].
  eexists; split; [ reflexivity | ].
  split; [ | split; [ reflexivity | split; [ | split ] ] ].
  - rewrite children_insert, decide_True by reflexivity.
    rewrite list_elem_of_filter. intros [Hne _]. now apply Hne.
  - rewrite children_insert, decide_True by reflexivity. reflexivity.
  - intros q Hq. rewrite children_insert, decide_False by congruence.
    reflexivity.
  - intros q n Hne. rewrite children_insert.
    destruct (decide (parent = q)) as [ <- | ]; [ | reflexivity ].
    rewrite list_elem_of_filter. tauto.
Qed.

Section MountFacts.
Context {rt : Runtime}.

Ltac bind_step :=
  match goal with
  | |- context [bindC ?c _] =>
      let E := fresh "E" in
      destruct c eqn:E; cbn [bindC]; [ | discriminate ]
  end.

(** What a mount that returns has done: it created a node that the document
    did not have, appended it to the children of the mount point, looked
    the card element up in it and, when it found it, put the two handlers
    on it; the cleanup closure removes that node from the mount point. *)
Lemma model_card_inv (component : Component) (doc doc' : Document)
  (node : nat) (cleanup : Document -> Completion Document) :
  model_card component doc = Normal (doc', node, cleanup) ->
  exists (parent : nat) (html : string) (found : bool),
    parentElement component = Some parent
    /\ querySelectorMatches html ("#" +:+ "mc-card-" +:+ key component)
       = Normal found
    /\ node = fresh (dom (nodes doc))
    /\ cleanup = removeChild (Some parent) node
    /\ childNodes doc'
       = <[parent := (children doc parent ++ [node])%list]> (childNodes doc)
    /\ (forall n, n ≠ node -> nodes doc' !! n = nodes doc !! n)
    /\ is_Some (nodes doc' !! node)
    /\ cardOf doc' node
       = (if found
          then Some (wiredCard (JSOr (data component) (JSObject [])))
          else None).
Proof.
  unfold model_card.
  repeat bind_step.
  unfold createElement. cbv beta iota zeta.
  destruct (parentElement component) as [ parent | ];
    cbn [appendChild bindC]; [ | discriminate ].
  bind_step.
  match goal with
  | E : querySelectorMatches _ _ = Normal ?f |- _ => rename f into found
  end.
  intros H. injection H as <- <- <-.
  eexists parent, _, found.
  split; [ reflexivity | ]. split; [ eassumption | ].
  split; [ reflexivity | ]. split; [ reflexivity | ].
  split; [ destruct found; reflexivity | ].
  split; [ | split ].
  - intros n Hn. destruct found; simpl.
    + rewrite lookup_alter_ne, !lookup_insert_ne by congruence. reflexivity.
    + rewrite !lookup_insert_ne by congruence. reflexivity.
  - destruct found; simpl.
    + rewrite lookup_alter_eq, lookup_insert_eq. simpl. eauto.
    + rewrite lookup_insert_eq. eauto.
  - unfold cardOf. destruct found; simpl.
    + rewrite lookup_alter_eq, lookup_insert_eq. reflexivity.
    + rewrite lookup_insert_eq. reflexivity.
Qed.



Lemma mounted_card (component : Component) (doc doc' : Document)
  (node : nat) (cleanup : Document -> Completion Document) :
  model_card component doc = Normal (doc', node, cleanup) ->
  cardOf doc' node <> None ->
  cardOf doc' node
  = Some (wiredCard (JSOr (data component) (JSObject []))).
Proof.
  intros H Hc.
  destruct (model_card_inv _ _ _ _ _ H)
    as (p & html & found & _ & _ & _ & _ & _ & _ & _ & Hcard).
  destruct found; [ exact Hcard | congruence ].
Qed.


End MountFacts.

(** With the runtime of the examples the card element is always found. *)
Lemma testRuntime_finds_card (component : Component) (doc doc' : Document)
  (node : nat) (cleanup : Document -> Completion Document) :
  @model_card testRuntime component doc = Normal (doc', node, cleanup) ->
  cardOf doc' node <> None.
Proof.
  intros H.
  destruct (@model_card_inv testRuntime _ _ _ _ _ H)
    as (p & html & found & _ & Hq & _ & _ & _ & _ & _ & Hcard).
  injection Hq as <-. rewrite Hcard. discriminate.
Qed.

Section ActivationFacts.
Context {rt : Runtime}.



(** C9: the cleanup closure that a mount returns removes from the mount
    point the node that this mount created and appended there, and nothing
    else.  In every later document in which the node is still a child of
    the mount point, the cleanup returns; afterwards the node is no child
    of the mount point, every node of the document is as it was (so the
    markup, the card element and the handlers of every other instance),
    the other children of the mount point are there in the same order, and
    the children of every other element are unchanged.  A mount made later
    creates a different node and leaves this one attached. *)
Theorem teardown_detaches_own_subtree (component : Component)
  (doc0 doc1 : Document) (node : nat)
  (cleanup : Document -> Completion Document) :
  model_card component doc0 = Normal (doc1, node, cleanup) ->
  exists parent : nat,
    parentElement component = Some parent
    /\ (node ∉ dom (nodes doc0))
    /\ (node ∈ dom (nodes doc1))
    /\ children doc1 parent = (children doc0 parent ++ [node])%list
    /\ (forall doc : Document,
          node ∈ children doc parent ->
          exists doc' : Document,
            cleanup doc = Normal doc'
            /\ (node ∉ children doc' parent)
            /\ nodes doc' = nodes doc
            /\ children doc' parent
               = filter (fun n => n ≠ node) (children doc parent)
            /\ (forall q, q ≠ parent -> children doc' q = children doc q)
            /\ (forall q n, n ≠ node ->
                            (n ∈ children doc' q) <-> (n ∈ children doc q)))
    /\ (forall (other : Component) (doc2 : Document) (node2 : nat)
               (cleanup2 : Document -> Completion Document),
          model_card other doc1 = Normal (doc2, node2, cleanup2) ->
          node2 ≠ node
          /\ (node ∈ children doc2 parent)
          /\ nodes doc2 !! node = nodes doc1 !! node).
Proof.
  intros Hmount.
  destruct (model_card_inv _ _ _ _ _ Hmount)
    as (parent & html & found & Hp & _ & Hnode & Hclean & Hch & Hothers
        & Hsome & _).
  exists parent.
  assert (Hfresh : node ∉ dom (nodes doc0)).
  { rewrite Hnode. apply is_fresh. }
  assert (Hin1 : node ∈ dom (nodes doc1)) by (apply elem_of_dom; exact Hsome).
  assert (Hch1 : children doc1 parent = (children doc0 parent ++ [node])%list).
  { unfold children at 1. rewrite Hch, lookup_insert_eq. reflexivity. }
  split; [ exact Hp | ]. split; [ exact Hfresh | ].
  split; [ exact Hin1 | ]. split; [ exact Hch1 | ]. split.
  - intros doc Hin. rewrite Hclean. apply removeChild_frame. exact Hin.
  - intros other doc2 node2 cleanup2 Hmount2.
    destruct (model_card_inv _ _ _ _ _ Hmount2)
      as (parent2 & html2 & found2 & _ & _ & Hnode2 & _ & Hch2 & Hothers2
          & _ & _).
    assert (Hne : node2 ≠ node).
    { intros ->. apply (is_fresh (dom (nodes doc1))).
      rewrite <- Hnode2. exact Hin1. }
    split; [ exact Hne | ]. split.
    + unfold children at 1. rewrite Hch2, lookup_insert.
      destruct (decide (parent2 = parent)) as [ -> | ]; simpl.
      * rewrite elem_of_app, Hch1, elem_of_app, list_elem_of_singleton. auto.
      * fold (children doc1 parent). rewrite Hch1, elem_of_app,
          list_elem_of_singleton. auto.
    + apply Hothers2. congruence.
Qed.

End ActivationFacts.

(** The example of the specification: the markup of the two rows, and the
    two signals of an activation. *)
Example example_rows :
  @metricRowsHtml testRuntime (propertyOf exampleData "metrics")
  = Normal
      (rowTemplate EmptyString "border-bottom:1px solid rgba(0,0,0,.08);"
         "Accuracy" EmptyString
       +:+ rowTemplate "mc-row-last" "border-bottom:none;" "Cost" "$1.5K").
Proof. reflexivity. Qed.

(** The two components of the examples mount. *)
Lemma example_mounts :
  exists r, @model_card testRuntime exampleComponent hostDocument = Normal r.
Proof. eexists. reflexivity. Qed.

Lemma other_mounts (doc : Document) :
  exists r, @model_card testRuntime otherComponent doc = Normal r.
Proof. eexists. reflexivity. Qed.







(** [teardown_detaches_own_subtree] with two cards under one mount point:
    the cleanup of the first leaves the second. *)
Lemma teardown_detaches_own_subtree_witness :
  exists (doc1 : Document) (node1 : nat)
         (cleanup1 : Document -> Completion Document)
         (doc2 : Document) (node2 : nat)
         (cleanup2 : Document -> Completion Document) (doc3 : Document),
    @model_card testRuntime exampleComponent hostDocument
    = Normal (doc1, node1, cleanup1)
    /\ @model_card testRuntime otherComponent doc1
       = Normal (doc2, node2, cleanup2)
    /\ cleanup1 doc2 = Normal doc3
    /\ children doc2 0 = [node1; node2]
    /\ children doc3 0 = [node2]
    /\ nodes doc3 = nodes doc2.
Proof.
  destruct example_mounts as [[[doc1 node1] cleanup1] Hm1].
  destruct (@teardown_detaches_own_subtree testRuntime exampleComponent
              hostDocument doc1 node1 cleanup1 Hm1)
    as (parent & Hp & _ & _ & Hch1 & Hclean & Hlater).
  injection Hp as <-.
  destruct (other_mounts doc1) as [[[doc2 node2] cleanup2] Hm2].
  destruct (Hlater _ _ _ _ Hm2) as (Hne & Hin & _).
  destruct (Hclean doc2 Hin) as (doc3 & Hrun & _ & Hnodes & Hch3 & _).
  destruct (@teardown_detaches_own_subtree testRuntime otherComponent
              doc1 doc2 node2 cleanup2 Hm2)
    as (parent2 & Hp2 & _ & _ & Hch2 & _).
  injection Hp2 as <-.
  assert (Hch : children doc2 0 = [node1; node2]).
  { rewrite Hch2, Hch1. reflexivity. }
  exists doc1, node1, cleanup1, doc2, node2, cleanup2, doc3.
  split; [ exact Hm1 | ]. split; [ exact Hm2 | ].
  split; [ exact Hrun | ]. split; [ exact Hch | ].
  split; [ | exact Hnodes ].
  rewrite Hch3, Hch. cbn [filter list_filter].
  rewrite decide_False by (intros H; apply H; reflexivity).
  rewrite decide_True by exact Hne. reflexivity.
Defined.

(** * Further properties of the component *)

(** ** The DECIMAL kind and the rows *)

Lemma eqb_zero (x : float) :
  PrimFloat.eqb x 0 = true -> exists s, Prim2SF x = S754_zero s.
Proof.
  rewrite FloatAxioms.eqb_spec. unfold SFeqb.
  change (Prim2SF 0) with (S754_zero false).
  destruct (Prim2SF x) as [ s | s | | s m e ]; simpl; try discriminate;
    eauto; destruct s; discriminate.
Qed.

Section MoreFormatterFacts.
Context {rt : Runtime}.

(** X1: with the kind DECIMAL the formatter returns [Number(value ?? 0)]
    rendered by [toFixed(2)], with no prefix and no suffix; zero is not
    suppressed but rendered as [0.00], as is an absent or null value, and
    the rendering has exactly two decimals whenever the number is finite
    and below [10^21] in magnitude. *)
Theorem decimal_format (v : JSValue) (x : float) :
  ToNumber (nullish v (JSNumber 0)) = Normal x ->
  formatMetricValue v (JSString "DECIMAL") = Normal (toFixed x 2)
  /\ (PrimFloat.eqb x 0 = true -> toFixed x 2 = "0.00")
  /\ (fixedRange x = true -> isFixedDecimal 2 (toFixed x 2) = true)
  /\ (isNullish v = true ->
      formatMetricValue v (JSString "DECIMAL") = Normal "0.00").
Proof.
  intros Hx. split; [ | split; [ | split ] ].
  - unfold formatMetricValue. rewrite Hx. reflexivity.
  - intros Hz. destruct (eqb_zero x Hz) as [s Hs].
    unfold toFixed. rewrite Hs. reflexivity.
  - apply toFixed_fixed. lia.
  - intros Hn. destruct v; try discriminate Hn; reflexivity.
Qed.

Lemma metricRow_border (n : nat) (metric : JSValue) (i : nat) (row : string) :
  metricRow n metric i = Normal row ->
  exists labelText formattedValue,
    row = rowTemplate (rowClass n i) (rowBorder n i) labelText formattedValue.
Proof.
  unfold metricRow, rowClass, rowBorder.
  destruct (Get metric "value"); simpl; [ | discriminate ].
  destruct (Get metric "format"); simpl; [ | discriminate ].
  destruct (formatMetricValue _ _); simpl; [ | discriminate ].
  destruct (Get metric "label"); simpl; [ | discriminate ].
  destruct (ToString _); simpl; [ | discriminate ].
  intros H; injection H as <-. eauto.
Qed.

(** X2: in the rows that the loop renders, the row of the last entry, and
    no other, has the class [mc-row-last] and no bottom border; every row
    before it has no class and the divider. *)
Theorem last_row_only_without_divider (elems : list JSValue)
  (rows : list string) :
  rowsFrom (length elems) elems 0 = Normal rows ->
  forall (i : nat) (row : string),
    rows !! i = Some row ->
    exists labelText formattedValue,
      (S i = length elems ->
       row = rowTemplate "mc-row-last" "border-bottom:none;" labelText
               formattedValue)
      /\ (S i <> length elems ->
          row = rowTemplate EmptyString
                  "border-bottom:1px solid rgba(0,0,0,.08);" labelText
                  formattedValue).
Proof.
  intros Hrows i row Hi.
  destruct (rowsFrom_rows _ _ _ _ Hrows) as [Hlen Hnth].
  assert (Hlt : (i < length elems)%nat).
  { rewrite <- Hlen. eapply lookup_lt_Some; exact Hi. }
  destruct (lookup_lt_is_Some_2 elems i Hlt) as [metric Hm].
  destruct (Hnth i metric Hm) as [row' [Hr' Hrow]].
  assert (row' = row) by congruence. subst row'.
  simpl in Hrow.
  destruct (metricRow_border _ _ _ _ Hrow) as (l & f & ->).
  exists l, f. unfold rowClass, rowBorder. split; intros Hs.
  - assert (He : Nat.eqb i (length elems - 1) = true)
      by (apply Nat.eqb_eq; lia).
    rewrite He. reflexivity.
  - assert (He : Nat.eqb i (length elems - 1) = false)
      by (apply Nat.eqb_neq; lia).
    rewrite He. reflexivity.
Qed.

(** X3: a falsy [m.metrics] (absent, null, false, 0, the empty string)
    renders no row, as the empty array does; a truthy value that is not an
    array has no [forEach], and the loop throws a TypeError. *)
Theorem metrics_absent_or_not_array (ms : JSValue) :
  (ToBoolean ms = false ->
   metricRowsHtml (JSOr ms (JSArray [])) = Normal EmptyString)
  /\ (ToBoolean ms = true -> (forall elems, ms <> JSArray elems) ->
      metricRowsHtml (JSOr ms (JSArray [])) = Throw TypeError)
  /\ metricRowsHtml (JSOr (JSArray []) (JSArray [])) = Normal EmptyString.
Proof.
  unfold JSOr. split; [ | split ].
  - intros ->. reflexivity.
  - intros -> Hna. destruct ms; try reflexivity.
    exfalso. eapply Hna. reflexivity.
  - reflexivity.
Qed.

(** X4: the label of a row is [metric.label || ""]: a falsy label (absent,
    null, false, 0, the empty string) is rendered as the empty text, so a
    label 0 is dropped, and the row is rendered whenever the value is. *)
Theorem falsy_label_is_blank (n : nat) (metric : JSValue) (i : nat) :
  isNullish metric = false ->
  ToBoolean (propertyOf metric "label") = false ->
  metricRow n metric i
  = (let* formattedValue :=
       formatMetricValue (propertyOf metric "value")
         (propertyOf metric "format") in
     Normal (rowTemplate (rowClass n i) (rowBorder n i) EmptyString
               formattedValue)).
Proof.
  intros Hm Hl. unfold metricRow, rowClass, rowBorder.
  rewrite (Get_propertyOf metric "value" Hm). cbn [bindC].
  rewrite (Get_propertyOf metric "format" Hm). cbn [bindC].
  destruct (formatMetricValue _ _) as [ f | e ]; cbn [bindC];
    [ | reflexivity ].
  rewrite (Get_propertyOf metric "label" Hm). cbn [bindC].
  unfold JSOr. rewrite Hl. reflexivity.
Qed.

Lemma metricRow_throws (n : nat) (metric : JSValue) (i : nat) (e : JSError) :
  metricRow n metric i = Throw e -> e = TypeError.
Proof.
  unfold metricRow.
  destruct (Get metric "value") as [ value | e0 ] eqn:Hv; simpl.
  - assert (Hm : isNullish metric = false)
      by (destruct metric; try reflexivity; discriminate Hv).
    rewrite !(Get_propertyOf metric _ Hm). simpl.
    destruct (formatMetricValue _ _) as [ f | e1 ] eqn:Hf; simpl.
    + destruct (ToString _) as [ l | e2 ] eqn:Hl; simpl; [ discriminate | ].
      intros H; injection H as <-. eapply ToString_throws; exact Hl.
    + intros H; injection H as <-. eapply formatMetricValue_throws; exact Hf.
  - intros H; injection H as <-.
    destruct metric; simpl in Hv; congruence.
Qed.

Lemma rowsFrom_throws (n : nat) (elems : list JSValue) :
  forall (index : nat) (e : JSError),
    rowsFrom n elems index = Throw e -> e = TypeError.
Proof.
  induction elems as [ | metric rest IH ]; intros index e; simpl;
    [ discriminate | ].
  destruct (metricRow n metric index) as [ row | e0 ] eqn:Hrow; simpl.
  - destruct (rowsFrom n rest (S index)) as [ rows | e1 ] eqn:Hrest; simpl;
      [ discriminate | ].
    intros H; injection H as <-. eapply IH; exact Hrest.
  - intros H; injection H as <-. eapply metricRow_throws; exact Hrow.
Qed.

Lemma metricRowsHtml_throws (ms : JSValue) (e : JSError) :
  metricRowsHtml ms = Throw e -> e = TypeError.
Proof.
  unfold metricRowsHtml.
  destruct ms; try (intros H; injection H as <-; reflexivity).
  rewrite forEachFrom_rows.
  destruct (rowsFrom _ _ _) as [ rows | e0 ] eqn:Hr; simpl; [ discriminate | ].
  intros H; injection H as <-. eapply rowsFrom_throws; exact Hr.
Qed.

Lemma renderableMetrics_rows (ms : JSValue) :
  renderableMetrics ms = true ->
  exists rows, metricRowsHtml (JSOr ms (JSArray [])) = Normal rows.
Proof.
  intros H.
  assert (Harr : forall elems,
             forallb tolerated elems = true ->
             exists rows, metricRowsHtml (JSArray elems) = Normal rows).
  { intros elems Hall. apply rows_render. intros i metric Hi.
    assert (Ht : tolerated metric = true).
    { rewrite forallb_forall in Hall. apply Hall.
      apply list_elem_of_In. eapply list_elem_of_lookup_2; exact Hi. }
    destruct (tolerated_row (length elems) metric i Ht)
      as (bc & bs & l & f & -> & _). reflexivity. }
  unfold JSOr. destruct (ToBoolean ms) eqn:Hb.
  - destruct ms; unfold renderableMetrics in H; rewrite ?Hb in H;
      try discriminate H.
    apply Harr. exact H.
  - eexists. reflexivity.
Qed.

End MoreFormatterFacts.

(** ** The mount as a whole *)

Lemma default_not_nullish (data : JSValue) :
  isNullish (JSOr data (JSObject [])) = false.
Proof.
  unfold JSOr. destruct (ToBoolean data) eqn:Hb; [ | reflexivity ].
  destruct data; try reflexivity; discriminate Hb.
Qed.

Lemma propertyOf_default (data : JSValue) (k : string) :
  propertyOf (JSOr data (JSObject [])) k = propertyOf data k.
Proof.
  unfold JSOr. destruct (ToBoolean data) eqn:Hb; [ reflexivity | ].
  destruct data; try discriminate Hb; reflexivity.
Qed.

Lemma filter_out_last (node : nat) (l : list nat) :
  node ∉ l -> filter (fun n => n ≠ node) (l ++ [node])%list = l.
Proof.
  intros Hn. rewrite filter_app.
  assert (H1 : filter (fun n => n ≠ node) l = l).
  { induction l as [ | a l IH ]; [ reflexivity | ].
    rewrite filter_cons, decide_True.
    - f_equal. apply IH. intros Hin. apply Hn. now right.
    - intros ->. apply Hn. now left. }
  rewrite H1. cbn [filter list_filter].
  rewrite decide_False by (intros H; apply H; reflexivity).
  apply app_nil_r.
Qed.

Section MoreMountFacts.
Context {rt : Runtime}.

(** [color + "26"] is the text of the color followed by [26]: without a
    preferred type the conversion yields what [String(color)] renders. *)
Lemma addString_ToString (v : JSValue) (s : string) :
  addString v s = (let* t := ToString v in Normal (t +:+ s)).
Proof.
  unfold addString. rewrite ToPrimitive_hint, ToString_unfold.
  destruct (ToPrimitive v HintString) as [ p | e ]; simpl; [ | reflexivity ].
  destruct (ToStringPrimitive p); reflexivity.
Qed.

(** The exported function in one equation: the three conversions that can
    fail, in the order of the failures, then the mount. *)
Lemma model_card_unfold (component : Component) (doc : Document) :
  model_card component doc
  = (let* colorText :=
       ToString (JSOr (propertyOf (data component) "color")
                   (JSString "#3B82F6")) in
     let* rows :=
       metricRowsHtml (JSOr (propertyOf (data component) "metrics")
                         (JSArray [])) in
     let* nameText :=
       ToString (nullish (propertyOf (data component) "name")
                   (JSString EmptyString)) in
     match parentElement component with
     | None => Throw TypeError
     | Some p =>
         let html :=
           cardTemplate ("mc-card-" +:+ key component) colorText nameText
             (colorText +:+ "26") rows
             (ToBoolean (propertyOf (data component) "recommended")) in
         let* found :=
           querySelectorMatches html ("#" +:+ "mc-card-" +:+ key component) in
         let node := fresh (dom (nodes doc)) in
         Normal (mountedDocument doc p node html
                   (if found
                    then Some (wiredCard (JSOr (data component)
                                            (JSObject [])))
                    else None),
                 node, removeChild (Some p) node)
     end).
Proof.
  unfold model_card.
  pose proof (default_not_nullish (data component)) as Hm.
  rewrite (Get_propertyOf _ "recommended" Hm), propertyOf_default.
  cbn [bindC].
  rewrite (Get_propertyOf _ "color" Hm), propertyOf_default. cbn [bindC].
  rewrite addString_ToString.
  destruct (ToString (JSOr (propertyOf (data component) "color")
                        (JSString "#3B82F6"))) as [ colorText | e ];
    cbn [bindC]; [ | reflexivity ].
  rewrite (Get_propertyOf _ "metrics" Hm), propertyOf_default. cbn [bindC].
  destruct (metricRowsHtml _) as [ rows | e ]; cbn [bindC]; [ | reflexivity ].
  rewrite (Get_propertyOf _ "name" Hm), propertyOf_default. cbn [bindC].
  destruct (ToString (nullish _ _)) as [ nameText | e ]; cbn [bindC];
    [ | reflexivity ].
  unfold createElement. cbv beta iota zeta.
  destruct (parentElement component) as [ p | ]; cbn [appendChild bindC];
    [ | reflexivity ].
  destruct (querySelectorMatches _ _) as [ found | e ]; cbn [bindC];
    [ | reflexivity ].
  do 2 f_equal. unfold mountedDocument, setCardElement, setInnerHTML.
  destruct found; simpl.
  - rewrite alter_insert_eq, insert_insert_eq. reflexivity.
  - rewrite insert_insert_eq. reflexivity.
Qed.

(** X5: the markup of a card that mounts.  The id of the card is
    [mc-card-] followed by the key; the header color is the text of
    [m.color], or [#3B82F6] when that is falsy; the body color is the
    header color followed by [26]; the title is the text of [m.name], empty
    when the name is absent or null (a name 0 or false is rendered); the
    badge is filled exactly when [m.recommended] is truthy; the rows are
    those of [m.metrics]. *)
Theorem mount_markup (component : Component) (doc doc' : Document)
  (node : nat) (cleanup : Document -> Completion Document) :
  model_card component doc = Normal (doc', node, cleanup) ->
  exists (colorText nameText rows : string) (n : Node),
    ToString (JSOr (propertyOf (data component) "color")
                (JSString "#3B82F6")) = Normal colorText
    /\ ToString (nullish (propertyOf (data component) "name")
                   (JSString EmptyString)) = Normal nameText
    /\ metricRowsHtml (JSOr (propertyOf (data component) "metrics")
                         (JSArray [])) = Normal rows
    /\ nodes doc' !! node = Some n
    /\ innerHTML n
       = cardTemplate ("mc-card-" +:+ key component) colorText nameText
           (colorText +:+ "26") rows
           (ToBoolean (propertyOf (data component) "recommended")).
Proof.
  rewrite model_card_unfold.
  destruct (ToString (JSOr _ _)) as [ colorText | e ]; cbn [bindC];
    [ | discriminate ].
  destruct (metricRowsHtml _) as [ rows | e ]; cbn [bindC];
    [ | discriminate ].
  destruct (ToString (nullish _ _)) as [ nameText | e ]; cbn [bindC];
    [ | discriminate ].
  destruct (parentElement component) as [ p | ]; [ | discriminate ].
  cbv zeta.
  destruct (querySelectorMatches _ _) as [ found | e ]; cbn [bindC];
    [ | discriminate ].
  intros H. injection H as <- <- <-.
  eexists colorText, nameText, rows, _.
  split; [ reflexivity | ]. split; [ reflexivity | ].
  split; [ reflexivity | ].
  split; [ unfold mountedDocument; simpl; apply lookup_insert_eq | ].
  reflexivity.
Qed.

(** X6: falsy data (absent, null, false, 0, the empty string) is taken as
    the empty record.  The card that mounts then has an empty title, the
    default color [#3B82F6] with the body color [#3B82F626], the outline
    badge and no row, and a click on it emits [null] twice. *)
Theorem falsy_data_default_card (component : Component) (doc doc' : Document)
  (node : nat) (cleanup : Document -> Completion Document) :
  ToBoolean (data component) = false ->
  model_card component doc = Normal (doc', node, cleanup) ->
  (exists n : Node,
      nodes doc' !! node = Some n
      /\ innerHTML n
         = cardTemplate ("mc-card-" +:+ key component) "#3B82F6" EmptyString
             "#3B82F626" EmptyString false)
  /\ forall host : list Signal,
      handleSelect (JSOr (data component) (JSObject [])) host
      = Normal (host ++ [setStateValue "selected" JSNull;
                         setTriggerValue "clicked" JSNull])%list.
Proof.
  intros Hf Hmount.
  assert (Hp : forall k, propertyOf (data component) k = JSUndefined).
  { intros k. destruct (data component); try discriminate Hf; reflexivity. }
  split.
  - destruct (mount_markup _ _ _ _ _ Hmount)
      as (colorText & nameText & rows & n & Hc & Hn & Hr & Hnode & Hhtml).
    rewrite !Hp in *. simpl in Hc, Hn, Hr.
    injection Hc as <-. injection Hn as <-. injection Hr as <-.
    exists n. split; [ exact Hnode | exact Hhtml ].
  - intros host. rewrite handleSelect_token.
    unfold selectionToken. rewrite !Hp. reflexivity.
Qed.

(** X7: a mount disturbs nothing that was there.  Every node of the
    document is as it was, the new node is appended after the children
    that the mount point had, in their order, and the children of every
    other element are unchanged. *)
Theorem mount_frame (component : Component) (doc doc' : Document)
  (node : nat) (cleanup : Document -> Completion Document) :
  model_card component doc = Normal (doc', node, cleanup) ->
  exists parent : nat,
    parentElement component = Some parent
    /\ nodes doc !! node = None
    /\ (forall n, n ≠ node -> nodes doc' !! n = nodes doc !! n)
    /\ children doc' parent = (children doc parent ++ [node])%list
    /\ (forall q, q ≠ parent -> children doc' q = children doc q).
Proof.
  intros Hmount.
  destruct (model_card_inv _ _ _ _ _ Hmount)
    as (parent & html & found & Hp & _ & Hnode & _ & Hch & Hothers & _ & _).
  exists parent. split; [ exact Hp | ]. split.
  { apply not_elem_of_dom. rewrite Hnode. apply is_fresh. }
  split; [ exact Hothers | ]. split.
  - unfold children at 1. rewrite Hch, lookup_insert_eq. reflexivity.
  - intros q Hq. unfold children at 1.
    rewrite Hch, lookup_insert_ne by congruence. reflexivity.
Qed.

(** X8: mount and cleanup are a round trip on a well-formed document.
    Run right after the mount, the cleanup returns, and then every element
    has the children it had before the mount and every node that was there
    is as it was; the node of the card stays in the document, detached. *)
Theorem mount_then_cleanup_restores (component : Component)
  (doc doc1 : Document) (node : nat)
  (cleanup : Document -> Completion Document) :
  wellFormed doc ->
  model_card component doc = Normal (doc1, node, cleanup) ->
  exists doc2 : Document,
    cleanup doc1 = Normal doc2
    /\ (forall q, children doc2 q = children doc q)
    /\ (forall n, n ≠ node -> nodes doc2 !! n = nodes doc !! n)
    /\ nodes doc2 !! node = nodes doc1 !! node.
Proof.
  intros Hwf Hmount.
  destruct (model_card_inv _ _ _ _ _ Hmount)
    as (parent & html & found & Hp & _ & Hnode & Hclean & Hch & Hothers
        & _ & _).
  assert (Hfresh : node ∉ dom (nodes doc)) by (rewrite Hnode; apply is_fresh).
  assert (Hch1 : children doc1 parent = (children doc parent ++ [node])%list).
  { unfold children at 1. rewrite Hch, lookup_insert_eq. reflexivity. }
  assert (Hin : node ∈ children doc1 parent).
  { rewrite Hch1, elem_of_app, list_elem_of_singleton. now right. }
  destruct (removeChild_frame parent node doc1 Hin)
    as (doc2 & Hrun & _ & Hnodes & Hch2 & Hq & _).
  exists doc2. rewrite Hclean. split; [ exact Hrun | ]. split; [ | split ].
  - intros q. destruct (decide (q = parent)) as [ -> | Hne ].
    + rewrite Hch2, Hch1. apply filter_out_last.
      intros Hc. apply Hfresh. eapply Hwf; exact Hc.
    + rewrite (Hq q Hne). unfold children.
      rewrite Hch, lookup_insert_ne by congruence. reflexivity.
  - intros n Hn. rewrite Hnodes. apply Hothers. exact Hn.
  - rewrite Hnodes. reflexivity.
Qed.

(** X9: the cleanup works once.  After a cleanup that returned, a second
    call finds the node no longer under the mount point and throws the
    NotFoundError of [removeChild]. *)
Theorem second_cleanup_throws (component : Component)
  (doc0 doc1 : Document) (node : nat)
  (cleanup : Document -> Completion Document) :
  model_card component doc0 = Normal (doc1, node, cleanup) ->
  forall doc doc' : Document,
    cleanup doc = Normal doc' -> cleanup doc' = Throw NotFoundError.
Proof.
  intros Hmount doc doc'.
  destruct (model_card_inv _ _ _ _ _ Hmount)
    as (parent & html & found & _ & _ & _ & -> & _).
  intros Hrun.
  assert (Hin : node ∈ children doc parent).
  { unfold removeChild in Hrun.
    destruct (decide (node ∈ children doc parent)); [ assumption | ].
    discriminate Hrun. }
  destruct (removeChild_frame parent node doc Hin)
    as (doc'' & Hrun' & Hout & _).
  assert (doc'' = doc') by congruence. subst doc''.
  unfold removeChild.
  destruct (decide (node ∈ children doc' parent)); [ contradiction | ].
  reflexivity.
Qed.

(** X10: how a mount fails.  Without a mount point it throws a TypeError,
    whatever the data; and every error of a mount is a TypeError, from a
    conversion, a row or the missing mount point, or else the error that
    the selector lookup threw. *)
Theorem mount_failures (component : Component) (doc : Document) :
  (parentElement component = None ->
   model_card component doc = Throw TypeError)
  /\ forall e : JSError,
      model_card component doc = Throw e ->
      e = TypeError
      \/ exists html : string,
          querySelectorMatches html ("#" +:+ "mc-card-" +:+ key component)
          = Throw e.
Proof.
  rewrite model_card_unfold.
  destruct (ToString (JSOr _ _)) as [ colorText | e0 ] eqn:Hc; cbn [bindC].
  2: { apply ToString_throws in Hc. subst e0. split; [ reflexivity | ].
       intros e H; injection H as <-. now left. }
  destruct (metricRowsHtml _) as [ rows | e0 ] eqn:Hr; cbn [bindC].
  2: { apply metricRowsHtml_throws in Hr. subst e0. split; [ reflexivity | ].
       intros e H; injection H as <-. now left. }
  destruct (ToString (nullish _ _)) as [ nameText | e0 ] eqn:Hn; cbn [bindC].
  2: { apply ToString_throws in Hn. subst e0. split; [ reflexivity | ].
       intros e H; injection H as <-. now left. }
  destruct (parentElement component) as [ p | ].
  - split; [ discriminate | ]. cbv zeta.
    destruct (querySelectorMatches _ _) as [ found | e0 ] eqn:Hq;
      cbn [bindC]; [ discriminate | ].
    intros e H; injection H as <-. right. eexists. exact Hq.
  - split; [ reflexivity | ]. intros e H; injection H as <-. now left.
Qed.

(** X11: a mount returns when there is a mount point, the color and the
    name are absent or convert to a primitive, the metrics are absent or an
    array of entries that render, and the selector lookup returns. *)
Theorem mount_succeeds (component : Component) (doc : Document) :
  parentElement component <> None ->
  convertible (propertyOf (data component) "color") = true ->
  convertible (propertyOf (data component) "name") = true ->
  renderableMetrics (propertyOf (data component) "metrics") = true ->
  (forall html : string,
      isNormal (querySelectorMatches html
                  ("#" +:+ "mc-card-" +:+ key component)) = true) ->
  exists (doc' : Document) (node : nat)
         (cleanup : Document -> Completion Document),
    model_card component doc = Normal (doc', node, cleanup).
Proof.
  intros Hp Hcolor Hname Hms Hq. rewrite model_card_unfold.
  assert (Hc : isNormal (ToString (JSOr (propertyOf (data component) "color")
                                     (JSString "#3B82F6"))) = true).
  { rewrite ToString_normal. unfold JSOr.
    destruct (ToBoolean _); [ exact Hcolor | reflexivity ]. }
  destruct (ToString (JSOr _ _)) as [ colorText | e ]; [ | discriminate Hc ].
  cbn [bindC].
  destruct (renderableMetrics_rows _ Hms) as [rows ->]. cbn [bindC].
  assert (Hn : isNormal (ToString (nullish (propertyOf (data component) "name")
                                     (JSString EmptyString))) = true).
  { rewrite ToString_normal, nullish_convertible by reflexivity.
    exact Hname. }
  destruct (ToString (nullish _ _)) as [ nameText | e ]; [ | discriminate Hn ].
  cbn [bindC].
  destruct (parentElement component) as [ p | ]; [ | congruence ].
  cbv zeta.
  match goal with
  | |- context [querySelectorMatches ?h ?s] =>
      pose proof (Hq h) as Hfound;
      destruct (querySelectorMatches h s) as [ found | e ];
      [ | discriminate Hfound ]
  end.
  cbn [bindC]. eauto.
Qed.


(** X13: what other instances do leaves the handlers of a card as they
    are.  After a later mount, a click or a key on this card does what it
    did before; and after the cleanup of this card, clicks and keys on
    every node of the document, this one included, do what they did. *)
Theorem handlers_survive (component : Component)
  (doc0 doc1 : Document) (node : nat)
  (cleanup : Document -> Completion Document) :
  model_card component doc0 = Normal (doc1, node, cleanup) ->
  (forall (other : Component) (doc2 : Document) (node2 : nat)
          (cleanup2 : Document -> Completion Document),
      model_card other doc1 = Normal (doc2, node2, cleanup2) ->
      forall (host : list Signal) (e : KeyboardEvent.t),
        click doc2 node host = click doc1 node host
        /\ keydown doc2 node e host = keydown doc1 node e host)
  /\ (forall doc doc' : Document,
        cleanup doc = Normal doc' ->
        forall (n : nat) (host : list Signal) (e : KeyboardEvent.t),
          click doc' n host = click doc n host
          /\ keydown doc' n e host = keydown doc n e host).
Proof.
  intros Hmount.
  destruct (model_card_inv _ _ _ _ _ Hmount)
    as (parent & html & found & _ & _ & _ & Hclean & _ & _ & Hsome & _).
  split.
  - intros other doc2 node2 cleanup2 Hmount2 host e.
    destruct (model_card_inv _ _ _ _ _ Hmount2)
      as (parent2 & html2 & found2 & _ & _ & Hnode2 & _ & _ & Hothers2
          & _ & _).
    assert (Hne : node ≠ node2).
    { intros ->. apply (is_fresh (dom (nodes doc1))).
      rewrite <- Hnode2. apply elem_of_dom. exact Hsome. }
    unfold click, keydown, cardOf. rewrite (Hothers2 node Hne).
    split; reflexivity.
  - intros doc doc' Hrun n host e. rewrite Hclean in Hrun.
    unfold removeChild in Hrun.
    destruct (decide (node ∈ children doc parent)); [ | discriminate Hrun ].
    injection Hrun as <-. split; reflexivity.
Qed.

(** X14: mounts and cleanups keep a document well formed: the child lists
    of the document after a mount, and after a cleanup, name nodes of that
    document only. *)
Theorem wellFormed_kept (component : Component)
  (doc doc1 : Document) (node : nat)
  (cleanup : Document -> Completion Document) :
  wellFormed doc ->
  model_card component doc = Normal (doc1, node, cleanup) ->
  wellFormed doc1
  /\ forall doc2 doc3 : Document,
      wellFormed doc2 -> cleanup doc2 = Normal doc3 -> wellFormed doc3.
Proof.
  intros Hwf Hmount.
  destruct (model_card_inv _ _ _ _ _ Hmount)
    as (parent & html & found & Hp & _ & Hnode & Hclean & Hch & Hothers
        & Hsome & _).
  split.
  - intros q n Hin.
    destruct (decide (n = node)) as [ -> | Hne ].
    { apply elem_of_dom. exact Hsome. }
    apply elem_of_dom. rewrite (Hothers n Hne). apply elem_of_dom.
    apply (Hwf q). revert Hin. unfold children at 1. rewrite Hch, lookup_insert.
    destruct (decide (parent = q)) as [ <- | ]; simpl.
    + rewrite elem_of_app, list_elem_of_singleton. intros [ H | H ];
        [ exact H | contradiction ].
    + intros H; exact H.
  - intros doc2 doc3 Hwf2 Hrun q n Hin. rewrite Hclean in Hrun.
    unfold removeChild in Hrun.
    destruct (decide (node ∈ children doc2 parent)) as [ Hn | ];
      [ | discriminate Hrun ].
    injection Hrun as <-. simpl.
    apply (Hwf2 q). revert Hin. rewrite children_insert.
    destruct (decide (parent = q)) as [ <- | ]; [ | intros H; exact H ].
    rewrite list_elem_of_filter. intros [_ H]; exact H.
Qed.

End MoreMountFacts.

(** ** Witnesses of the further properties *)

Lemma blank_mounts :
  exists r, @model_card testRuntime blankComponent hostDocument = Normal r.
Proof. eexists. reflexivity. Qed.

Lemma hostDocument_wellFormed : wellFormed hostDocument.
Proof.
  intros p n H. unfold children, hostDocument in H. simpl in H.
  rewrite lookup_empty in H. simpl in H. inversion H.
Qed.

(** [decimal_format] at the value 2.5. *)
Lemma decimal_format_witness :
  @ToNumber testRuntime (nullish (JSNumber 2.5) (JSNumber 0))
  = Normal 2.5%float
  /\ @formatMetricValue testRuntime (JSNumber 2.5) (JSString "DECIMAL")
     = Normal "2.50".
Proof.
  split; [ reflexivity | ].
  destruct (@decimal_format testRuntime (JSNumber 2.5) 2.5%float eq_refl)
    as [H _].
  exact H.
Defined.

(** [last_row_only_without_divider] on the two rows of the example. *)
Lemma last_row_only_without_divider_witness :
  exists (rows : list string) (row labelText formattedValue : string),
    @rowsFrom testRuntime (length exampleMetrics) exampleMetrics 0
    = Normal rows
    /\ rows !! 1%nat = Some row
    /\ row = rowTemplate "mc-row-last" "border-bottom:none;" labelText
               formattedValue.
Proof.
  pose (row0 := rowTemplate EmptyString
                  "border-bottom:1px solid rgba(0,0,0,.08);" "Accuracy"
                  EmptyString).
  pose (row1 := rowTemplate "mc-row-last" "border-bottom:none;" "Cost"
                  "$1.5K").
  assert (Hrows : @rowsFrom testRuntime (length exampleMetrics)
                    exampleMetrics 0 = Normal [row0; row1])
    by reflexivity.
  destruct (@last_row_only_without_divider testRuntime exampleMetrics
              [row0; row1] Hrows 1%nat row1 eq_refl)
    as (labelText & formattedValue & Hlast & _).
  exists [row0; row1], row1, labelText, formattedValue.
  split; [ exact Hrows | ]. split; [ reflexivity | ].
  apply Hlast. reflexivity.
Defined.

(** [falsy_label_is_blank] at an entry with the label 0. *)
Lemma falsy_label_is_blank_witness :
  isNullish zeroLabelMetric = false
  /\ ToBoolean (propertyOf zeroLabelMetric "label") = false
  /\ @metricRow testRuntime 1 zeroLabelMetric 0
     = Normal (rowTemplate "mc-row-last" "border-bottom:none;" EmptyString
                 "$1.5K").
Proof.
  split; [ reflexivity | ]. split; [ reflexivity | ].
  exact (@falsy_label_is_blank testRuntime 1%nat zeroLabelMetric 0%nat
           eq_refl eq_refl).
Defined.

(** [mount_markup] on the example of the specification. *)
Lemma mount_markup_witness :
  exists (doc' : Document) (node : nat)
         (cleanup : Document -> Completion Document)
         (rows : string) (n : Node),
    @model_card testRuntime exampleComponent hostDocument
    = Normal (doc', node, cleanup)
    /\ nodes doc' !! node = Some n
    /\ innerHTML n
       = cardTemplate "mc-card-k1" "#3B82F6" "Model A" "#3B82F626" rows true.
Proof.
  destruct example_mounts as [[[doc' node] cleanup] Hm].
  destruct (@mount_markup testRuntime _ _ _ _ _ Hm)
    as (colorText & nameText & rows & n & Hc & Hn & _ & Hnode & Hhtml).
  vm_compute in Hc. injection Hc as <-.
  vm_compute in Hn. injection Hn as <-.
  exists doc', node, cleanup, rows, n.
  split; [ exact Hm | ]. split; [ exact Hnode | exact Hhtml ].
Defined.

(** [falsy_data_default_card] on a component whose data is [null]. *)
Lemma falsy_data_default_card_witness :
  exists (doc' : Document) (node : nat)
         (cleanup : Document -> Completion Document) (n : Node),
    ToBoolean (data blankComponent) = false
    /\ @model_card testRuntime blankComponent hostDocument
       = Normal (doc', node, cleanup)
    /\ nodes doc' !! node = Some n
    /\ innerHTML n
       = cardTemplate "mc-card-k0" "#3B82F6" EmptyString "#3B82F626"
           EmptyString false.
Proof.
  destruct blank_mounts as [[[doc' node] cleanup] Hm].
  destruct (@falsy_data_default_card testRuntime blankComponent hostDocument
              doc' node cleanup eq_refl Hm) as [(n & Hnode & Hhtml) _].
  exists doc', node, cleanup, n.
  split; [ reflexivity | ]. split; [ exact Hm | ].
  split; [ exact Hnode | exact Hhtml ].
Defined.

(** [mount_frame] on the example: the mount point is left alone. *)
Lemma mount_frame_witness :
  exists (doc' : Document) (node : nat)
         (cleanup : Document -> Completion Document),
    @model_card testRuntime exampleComponent hostDocument
    = Normal (doc', node, cleanup)
    /\ nodes doc' !! 0%nat = nodes hostDocument !! 0%nat
    /\ children doc' 0 = [node].
Proof.
  destruct example_mounts as [[[doc' node] cleanup] Hm].
  destruct (@mount_frame testRuntime _ _ _ _ _ Hm)
    as (parent & Hp & Hnew & Hothers & Hch & _).
  injection Hp as <-.
  exists doc', node, cleanup.
  split; [ exact Hm | ]. split; [ | exact Hch ].
  apply Hothers. intros <-. discriminate Hnew.
Defined.

(** [mount_then_cleanup_restores] on the example. *)
Lemma mount_then_cleanup_restores_witness :
  exists (doc1 : Document) (node : nat)
         (cleanup : Document -> Completion Document) (doc2 : Document),
    wellFormed hostDocument
    /\ @model_card testRuntime exampleComponent hostDocument
       = Normal (doc1, node, cleanup)
    /\ cleanup doc1 = Normal doc2
    /\ children doc2 0 = children hostDocument 0.
Proof.
  destruct example_mounts as [[[doc1 node] cleanup] Hm].
  destruct (@mount_then_cleanup_restores testRuntime _ _ _ _ _
              hostDocument_wellFormed Hm) as (doc2 & Hrun & Hch & _).
  exists doc1, node, cleanup, doc2.
  split; [ exact hostDocument_wellFormed | ]. split; [ exact Hm | ].
  split; [ exact Hrun | apply Hch ].
Defined.

(** [second_cleanup_throws] on the example. *)
Lemma second_cleanup_throws_witness :
  exists (doc1 : Document) (node : nat)
         (cleanup : Document -> Completion Document) (doc2 : Document),
    @model_card testRuntime exampleComponent hostDocument
    = Normal (doc1, node, cleanup)
    /\ cleanup doc1 = Normal doc2
    /\ cleanup doc2 = Throw NotFoundError.
Proof.
  destruct example_mounts as [[[doc1 node] cleanup] Hm].
  destruct (@mount_then_cleanup_restores testRuntime _ _ _ _ _
              hostDocument_wellFormed Hm) as (doc2 & Hrun & _).
  exists doc1, node, cleanup, doc2.
  split; [ exact Hm | ]. split; [ exact Hrun | ].
  exact (@second_cleanup_throws testRuntime _ _ _ _ _ Hm doc1 doc2 Hrun).
Defined.

(** [mount_succeeds] on the example. *)
Lemma mount_succeeds_witness :
  parentElement exampleComponent <> None
  /\ convertible (propertyOf (data exampleComponent) "color") = true
  /\ convertible (propertyOf (data exampleComponent) "name") = true
  /\ renderableMetrics (propertyOf (data exampleComponent) "metrics") = true
  /\ exists (doc' : Document) (node : nat)
            (cleanup : Document -> Completion Document),
      @model_card testRuntime exampleComponent hostDocument
      = Normal (doc', node, cleanup).
Proof.
  split; [ discriminate | ]. split; [ reflexivity | ].
  split; [ reflexivity | ]. split; [ reflexivity | ].
  apply (@mount_succeeds testRuntime exampleComponent hostDocument);
    [ discriminate | reflexivity | reflexivity | reflexivity
    | intros html; reflexivity ].
Defined.


(** [handlers_survive] on two cards under one mount point. *)
Lemma handlers_survive_witness :
  exists (doc1 : Document) (node1 : nat)
         (cleanup1 : Document -> Completion Document)
         (doc2 : Document) (node2 : nat)
         (cleanup2 : Document -> Completion Document),
    @model_card testRuntime exampleComponent hostDocument
    = Normal (doc1, node1, cleanup1)
    /\ @model_card testRuntime otherComponent doc1
       = Normal (doc2, node2, cleanup2)
    /\ click doc2 node1 [] = click doc1 node1 [].
Proof.
  destruct example_mounts as [[[doc1 node1] cleanup1] Hm1].
  destruct (other_mounts doc1) as [[[doc2 node2] cleanup2] Hm2].
  destruct (@handlers_survive testRuntime _ _ _ _ _ Hm1) as [Hlater _].
  exists doc1, node1, cleanup1, doc2, node2, cleanup2.
  split; [ exact Hm1 | ]. split; [ exact Hm2 | ].
  destruct (Hlater _ _ _ _ Hm2 [] spaceKey) as [Hclick _]. exact Hclick.
Defined.

(** [wellFormed_kept] on the example. *)
Lemma wellFormed_kept_witness :
  exists (doc1 : Document) (node : nat)
         (cleanup : Document -> Completion Document),
    wellFormed hostDocument
    /\ @model_card testRuntime exampleComponent hostDocument
       = Normal (doc1, node, cleanup)
    /\ wellFormed doc1.
Proof.
  destruct example_mounts as [[[doc1 node] cleanup] Hm].
  destruct (@wellFormed_kept testRuntime _ _ _ _ _
              hostDocument_wellFormed Hm) as [Hwf _].
  exists doc1, node, cleanup.
  split; [ exact hostDocument_wellFormed | ]. split; [ exact Hm | exact Hwf ].
Defined.
